(** * DECam crosstalk table conversion: [decam/makeCrosstalkDecam.py]

    A shallow embedding of [readFile], [makeDetectorCrosstalk] and the
    script body that calls them, with the properties of the
    crosstalk-table-to-calibration-matrix transformation; and of the
    string computations of [python/lsst/obs/decam/_instrument.py].

    - Python [str] values are Rocq strings; a character stands for the code
      point of the same number (code points below 256).
    - The file handed to [readFile] is the list of lines that iterating over
      the open file yields (each line still carries its line terminator).
    - [outDict], the [interChip] dictionaries and the [PropertyList] are
      finite maps with string keys; a numpy array of shape (2, 2) is a list
      of rows.
    - Python exceptions are values of [exn]; a statement that can raise is a
      computation in a state-and-exception monad whose state is [outDict].
      The state at the moment of a raise is kept, as Python keeps the
      mutations made before an exception.
    - The 64-bit float type, its zero and the builtin [float()] conversion
      are parameters of the development. *)

From Stdlib Require Import Ascii String PrimFloat Uint63 ZArith.
From stdpp Require Import base option list strings gmap fin_maps.

(** ** Python string operations used by the script *)

Module PyStr.

(** [str.isspace] on one character (code points below 256): the ASCII
    white space 9-13 and 32, the separators 28-31, NEL (133) and the
    no-break space (160). *)
Definition isspace (c : ascii) : bool :=
  let n := nat_of_ascii c in
  ((9 <=? n) && (n <=? 13)) || ((28 <=? n) && (n <=? 32))
  || (n =? 133) || (n =? 160).

Fixpoint lstrip (s : string) : string :=
  match s with
  | EmptyString => EmptyString
  | String c s' => if isspace c then lstrip s' else s
  end.

Definition rstrip (s : string) : string :=
  String.rev (lstrip (String.rev s)).

(** [s.strip()] *)
Definition strip (s : string) : string := rstrip (lstrip s).

(** [s.startswith(p)] *)
Definition startswith (s p : string) : bool := String.prefix p s.

(** [s.split()]: the maximal runs of characters that are not white space.
    [cur] is the run being read, most recent character first. *)
Definition flush (cur : string) : list string :=
  match cur with
  | EmptyString => []
  | _ => [String.rev cur]
  end.

Fixpoint split_go (cur : string) (s : string) : list string :=
  match s with
  | EmptyString => flush cur
  | String c s' =>
      if isspace c then flush cur ++ split_go EmptyString s'
      else split_go (String c cur) s'
  end.

Definition split (s : string) : list string := split_go EmptyString s.

(** [c in s] for a one-character string [c]. *)
Fixpoint contains (c : ascii) (s : string) : bool :=
  match s with
  | EmptyString => false
  | String d s' => if decide (c = d) then true else contains c s'
  end.

(** [s.replace(c, "")] for a one-character string [c]: every occurrence
    of [c] is removed. *)
Fixpoint remove (c : ascii) (s : string) : string :=
  match s with
  | EmptyString => EmptyString
  | String d s' => if decide (c = d) then remove c s' else String d (remove c s')
  end.

End PyStr.

(** ** A float conversion for plain decimal literals

    [float()] of the interpreter accepts more than this (exponents,
    infinities, underscores); [decimalFloat] covers an optional sign,
    digits, and an optional fraction, with at most 15 digits in all.
    The integer of the digits and the power of ten are then exact
    binary64 values, so their correctly rounded quotient is the float
    nearest to the literal, which is what [float()] returns. It is the
    instance used to run [readFile] on concrete files. *)

Module DecimalFloat.

Definition digit (c : ascii) : option Z :=
  let n := Z.of_nat (nat_of_ascii c) in
  if ((48 <=? n) && (n <=? 57))%Z then Some (n - 48)%Z else None.

(** Reads digits; returns the integer read, the number of digits and the
    rest of the string. *)
Fixpoint digits (acc : Z) (n : nat) (s : string) : Z * nat * string :=
  match s with
  | EmptyString => (acc, n, s)
  | String c s' =>
      match digit c with
      | Some d => digits (10 * acc + d)%Z (S n) s'
      | None => (acc, n, s)
      end
  end.

Definition unsigned (s : string) : option float :=
  let '(ip, ni, rest) := digits 0 0 s in
  let '(m, nf, rest') :=
    match rest with
    | String "."%char r => digits ip 0 r
    | _ => (ip, 0, rest)
    end in
  match rest' with
  | EmptyString =>
      if decide (0 < ni + nf ∧ ni + nf ≤ 15) then
        Some (PrimFloat.div (PrimFloat.of_uint63 (Uint63.of_Z m))
                            (PrimFloat.of_uint63 (Uint63.of_Z (10 ^ Z.of_nat nf))))
      else None
  | _ => None
  end.

Definition decimalFloat (s : string) : option float :=
  match s with
  | String "-"%char s' => PrimFloat.opp <$> unsigned s'
  | String "+"%char s' => unsigned s'
  | _ => unsigned s
  end.

End DecimalFloat.

(** ** Exceptions and the state-and-exception monad *)

Inductive exn : Type :=
  | IndexError                     (* [elem[k]] with too few tokens *)
  | ValueError (tok : string)      (* [float(tok)] on a malformed token *)
  | RuntimeError (msg : string)    (* the script's own [raise] *)
  | KeyError (key : string).       (* lookup of a missing dictionary key *)

Inductive outcome (A : Type) : Type :=
  | Returned (a : A)
  | Raised (e : exn).
Arguments Returned {A} a.
Arguments Raised {A} e.

Global Instance outcome_ret : MRet outcome := @Returned.
Global Instance outcome_bind : MBind outcome := λ A B k x,
  match x with
  | Returned a => k a
  | Raised e => Raised e
  end.

(** A statement: from the state before it to the state after it, with
    either a value or the exception raised. *)
Definition M (S A : Type) : Type := S → S * outcome A.

Global Instance M_ret {S} : MRet (M S) := λ A a s, (s, Returned a).
Global Instance M_bind {S} : MBind (M S) := λ A B k m s,
  match m s with
  | (s', Returned a) => k a s'
  | (s', Raised e) => (s', Raised e)
  end.
Definition get {S} : M S S := λ s, (s, Returned s).
Definition put {S} (s' : S) : M S unit := λ _, (s', Returned tt).
(** An expression that can raise but cannot touch the state. *)
Definition lift {S A} (x : outcome A) : M S A := λ s, (s, x).

(** The line terminator that ends the lines read from a file. *)
Definition LF : string := String "010"%char EmptyString.

(** Files and floats on which the script is run below. The floats are the
    binary64 values nearest to the decimal literals. *)
Module Sample.

Definition c0012 : float := 0x1.3a92a30553261p-10%float.   (* 0.0012 *)
Definition c0009 : float := 0x1.d7dbf487fcb92p-11%float.   (* 0.0009 *)
Definition c0003 : float := 0x1.3a92a30553261p-12%float.   (* 0.0003 *)

Definition self01 : string := "ccd01A ccd01B 0.0012" +:+ LF.
Definition self10 : string := "ccd01B ccd01A 0.0009" +:+ LF.
Definition inter : string := "ccd01A ccd02B 0.0003" +:+ LF.
Definition again01 : string := "ccd01A ccd01B 0.0009" +:+ LF.
Definition comment : string := "# victim source coefficient" +:+ LF.
Definition unknownDet : string := "ccd99A ccd01A 0.001" +:+ LF.

(** The file of the end-to-end example. *)
Definition example : list string := [self01; self10; inter].

Definition victim02 : string := "ccd02A ccd01B 0.0003" +:+ LF.
Definition self03 : string := "ccd03A ccd03A 0.0009" +:+ LF.
Definition twoTokens : string := "ccd01A ccd01B" +:+ LF.
Definition badNumber : string := "ccd01X ccd99 1,5" +:+ LF.
Definition trailing : string := "ccd01A ccd01B 0.0012 # measured twice" +:+ LF.

End Sample.

(** Two binary64 constants are told apart by [PrimFloat.eqb]. *)
Ltac float_discr H c :=
  apply (f_equal (λ o, match o with Some x => PrimFloat.eqb x c | None => false end)) in H;
  vm_compute in H; discriminate H.

(** ** Data model *)

(** The amp label the script extracts from a token: the string ['A'] or
    the string ['B']. *)
Inductive AmpLabel : Type := AmpA | AmpB.

Global Instance AmpLabel_eq_dec : EqDecision AmpLabel.
Proof. solve_decision. Defined.

Definition ampChar (a : AmpLabel) : ascii :=
  match a with AmpA => "A"%char | AmpB => "B"%char end.

(** [ampIndexMap = {'A': 0, 'B': 1}] *)
Definition ampIndexMap (a : AmpLabel) : nat :=
  match a with AmpA => 0 | AmpB => 1 end.

(** The literal [detMap] of [readFile]: vendor identifier to detector name. *)
Definition detMapItems : list (string * string) :=
  [("ccd01", "S29"); ("ccd02", "S30"); ("ccd03", "S31"); ("ccd04", "S25"); ("ccd05", "S26");
   ("ccd06", "S27"); ("ccd07", "S28"); ("ccd08", "S20"); ("ccd09", "S21"); ("ccd10", "S22");
   ("ccd11", "S23"); ("ccd12", "S24"); ("ccd13", "S14"); ("ccd14", "S15"); ("ccd15", "S16");
   ("ccd16", "S17"); ("ccd17", "S18"); ("ccd18", "S19"); ("ccd19", "S8"); ("ccd20", "S9");
   ("ccd21", "S10"); ("ccd22", "S11"); ("ccd23", "S12"); ("ccd24", "S13"); ("ccd25", "S1");
   ("ccd26", "S2"); ("ccd27", "S3"); ("ccd28", "S4"); ("ccd29", "S5"); ("ccd30", "S6");
   ("ccd31", "S7"); ("ccd32", "N1"); ("ccd33", "N2"); ("ccd34", "N3"); ("ccd35", "N4");
   ("ccd36", "N5"); ("ccd37", "N6"); ("ccd38", "N7"); ("ccd39", "N8"); ("ccd40", "N9");
   ("ccd41", "N10"); ("ccd42", "N11"); ("ccd43", "N12"); ("ccd44", "N13"); ("ccd45", "N14");
   ("ccd46", "N15"); ("ccd47", "N16"); ("ccd48", "N17"); ("ccd49", "N18"); ("ccd50", "N19");
   ("ccd51", "N20"); ("ccd52", "N21"); ("ccd53", "N22"); ("ccd54", "N23"); ("ccd55", "N24");
   ("ccd56", "N25"); ("ccd57", "N26"); ("ccd58", "N27"); ("ccd59", "N28"); ("ccd60", "N29");
   ("ccd61", "N30"); ("ccd62", "N31")].

Definition detMap : gmap string string := list_to_map detMapItems.
Global Arguments detMap : simpl never.

(** [d[k]] on a dictionary: the value, or [KeyError]. *)
Definition getitem {V} (d : gmap string V) (k : string) : outcome V :=
  match d !! k with
  | Some v => Returned v
  | None => Raised (KeyError k)
  end.

(** [elem[k]] on a list: the item, or [IndexError]. *)
Definition index {A} (l : list A) (k : nat) : outcome A :=
  match l !! k with
  | Some x => Returned x
  | None => Raised IndexError
  end.

(** The keys of a dictionary in iteration order, from the keys in the
    order the code stores them: a Python dictionary iterates in insertion
    order, and storing under a key already present keeps its place.
    [seen] holds the keys met so far. *)
Fixpoint firstSeen (seen : list string) (ks : list string) : list string :=
  match ks with
  | [] => []
  | k :: ks' =>
      if decide (k ∈ seen) then firstSeen seen ks'
      else k :: firstSeen (k :: seen) ks'
  end.

(** ** [python/lsst/obs/decam/_instrument.py]

    The parts of [DarkEnergyCamera] that compute on strings: the
    [shortNameFunc] handed to [makeCameraFromPath] and the record that
    [register] builds for a detector. *)

Module Instrument.

(** [s.replace(old, new)] for one-character strings [old] and [new]. *)
Fixpoint replaceChar (old new : ascii) (s : string) : string :=
  match s with
  | EmptyString => EmptyString
  | String c s' =>
      String (if decide (c = old) then new else c) (replaceChar old new s')
  end.

(** [s.split(sep)] for a one-character separator: the fields between the
    separators, the empty ones kept; never an empty list. *)
Fixpoint splitOn (sep : ascii) (s : string) : list string :=
  match s with
  | EmptyString => [EmptyString]
  | String c s' =>
      if decide (c = sep) then EmptyString :: splitOn sep s'
      else match splitOn sep s' with
           | [] => [String c EmptyString]
           | w :: ws => String c w :: ws
           end
  end.

(** [sep.join(ws)] for a one-character separator. *)
Fixpoint joinOn (sep : ascii) (ws : list string) : string :=
  match ws with
  | [] => EmptyString
  | [w] => w
  | w :: ws' => w +:+ String sep (joinOn sep ws')
  end.

(** Line 67: [shortNameFunc = lambda name: name.replace(" ", "_")]. *)
Definition shortNameFunc (name : string) : string :=
  replaceChar " "%char "_"%char name.

(** Lines 50-51: [getName]. *)
Definition getName : string := "DECam".

(** The dictionary of lines 85-92, for a detector. *)
Record DetectorRecord : Type := mkDetectorRecord {
  instrument : string;
  id : Z;
  full_name : string;
  name_in_raft : string;
  raft : string;
  purpose : string
}.

(** [s[1:]] *)
Definition tail (s : string) : string :=
  match s with
  | EmptyString => EmptyString
  | String _ s' => s'
  end.

(** [s[0]]: a one-character string, or [IndexError] on the empty string. *)
Definition first (s : string) : outcome string :=
  match s with
  | EmptyString => Raised IndexError
  | String c _ => Returned (String c EmptyString)
  end.

(** Lines 85-92, with [name] for [detector.getName()], [detId] for
    [detector.getId()] and [type] for [str(detector.getType())]. The
    values are computed in the order of the dictionary display. *)
Definition detectorRecord (name : string) (detId : Z) (type : string)
    : outcome DetectorRecord :=
  let nameInRaft := tail name in
  r ← first name;
  p ← index (splitOn "."%char type) (pred (length (splitOn "."%char type)));
  Returned (mkDetectorRecord getName detId name nameInRaft r p).

End Instrument.

Section Crosstalk.

(** The float type of the coefficients, its zero, and [float()]:
    [None] stands for the [ValueError] of a token that is not a number. *)
Context {F : Type} (fzero : F) (pyfloat : string → option F).

(** A numpy array of two dimensions, as its list of rows. *)
Definition Matrix : Type := list (list F).

(** [np.zeros_like([], shape=(r, c))] *)
Definition zeros (r c : nat) : Matrix := replicate r (replicate c fzero).

(** [m[i][j]] *)
Definition cell (m : Matrix) (i j : nat) : option F :=
  m !! i ≫= λ row, row !! j.

(** [m[i][j] = x]: [IndexError] outside the array. *)
Definition setCell (m : Matrix) (i j : nat) (x : F) : outcome Matrix :=
  match m !! i with
  | Some row =>
      if decide (j < length row) then Returned (<[i := <[j := x]> row]> m)
      else Raised IndexError
  | None => Raised IndexError
  end.

(** [m.transpose()]: row [j] of the result is column [j] of [m]. *)
Definition transpose (m : Matrix) : Matrix :=
  (λ j, omap (λ row : list F, row !! j) m) <$> seq 0 (length (default [] (head m))).

(** The dictionary [outDict[victimDet]]. The keys ['DETECTOR'] and
    ['DETECTOR_SERIAL'] are absent until a statement sets them. *)
Record Entry : Type := mkEntry {
  metadata : gmap string string;
  interChip : gmap string Matrix;
  crosstalkShape : nat * nat;
  hasCrosstalk : bool;
  nAmp : nat;
  coeffs : Matrix;
  DETECTOR : option string;
  DETECTOR_SERIAL : option string
}.

Definition set_metadata (f : gmap string string → gmap string string) (e : Entry) : Entry :=
  mkEntry (f (metadata e)) (interChip e) (crosstalkShape e) (hasCrosstalk e)
          (nAmp e) (coeffs e) (DETECTOR e) (DETECTOR_SERIAL e).
Definition set_interChip (f : gmap string Matrix → gmap string Matrix) (e : Entry) : Entry :=
  mkEntry (metadata e) (f (interChip e)) (crosstalkShape e) (hasCrosstalk e)
          (nAmp e) (coeffs e) (DETECTOR e) (DETECTOR_SERIAL e).
Definition set_coeffs (m : Matrix) (e : Entry) : Entry :=
  mkEntry (metadata e) (interChip e) (crosstalkShape e) (hasCrosstalk e)
          (nAmp e) m (DETECTOR e) (DETECTOR_SERIAL e).
Definition set_DETECTOR (v : string) (e : Entry) : Entry :=
  mkEntry (metadata e) (interChip e) (crosstalkShape e) (hasCrosstalk e)
          (nAmp e) (coeffs e) (Some v) (DETECTOR_SERIAL e).
Definition set_DETECTOR_SERIAL (v : string) (e : Entry) : Entry :=
  mkEntry (metadata e) (interChip e) (crosstalkShape e) (hasCrosstalk e)
          (nAmp e) (coeffs e) (DETECTOR e) (Some v).

(** The entry built by lines 99-108 for a victim detector seen for the
    first time. The test ['coeffs' not in outDict[victimDet]] of line 106
    holds on the dictionary just created, so [coeffs] is always set. *)
Definition newEntry : Entry :=
  {| metadata := {["OBSTYPE" := "CROSSTALK"]};
     interChip := ∅;
     crosstalkShape := (2, 2);
     hasCrosstalk := true;
     nAmp := 2;
     coeffs := zeros 2 2;
     DETECTOR := None;
     DETECTOR_SERIAL := None |}.

(** One decoded input line (the values of the local variables after
    line 96). *)
Record CrosstalkRecord : Type := mkRecord {
  victimDet : string;
  victimAmp : nat;
  sourceDet : string;
  sourceAmp : nat;
  coeff : F
}.

(** ** [readFile] *)

(** Lines 76-81 and 83-88: the amp label of a token. *)
Definition ampOf (detAmp : string) : outcome AmpLabel :=
  if PyStr.contains "A" detAmp then Returned AmpA
  else if PyStr.contains "B" detAmp then Returned AmpB
  else Raised (RuntimeError ("Unknown amp: " +:+ detAmp)).

(** Lines 70-96, on the stripped line [li]. *)
Definition decode (li : string) : outcome CrosstalkRecord :=
  let elem := PyStr.split li in
  victimDetAmp ← index elem 0;
  sourceDetAmp ← index elem 1;
  elem2 ← index elem 2;
  coeff ← from_option Returned (Raised (ValueError elem2)) (pyfloat elem2);
  victimAmp ← ampOf victimDetAmp;
  sourceAmp ← ampOf sourceDetAmp;
  let victimDet := PyStr.remove (ampChar victimAmp) victimDetAmp in
  let sourceDet := PyStr.remove (ampChar sourceAmp) sourceDetAmp in
  victimDet ← getitem detMap victimDet;
  sourceDet ← getitem detMap sourceDet;
  let victimAmp := ampIndexMap victimAmp in
  let sourceAmp := ampIndexMap sourceAmp in
  Returned (mkRecord victimDet victimAmp sourceDet sourceAmp coeff).

(** [outDict[k]... = ...]: a statement that fetches [outDict[k]] and
    mutates that dictionary. *)
Definition onEntry (k : string) (f : Entry → outcome Entry) : M (gmap string Entry) unit :=
  outDict ← get;
  e ← lift (getitem outDict k);
  e' ← lift (f e);
  put (<[k := e']> outDict).

(** Lines 98-119. *)
Definition store (r : CrosstalkRecord) : M (gmap string Entry) unit :=
  let '(mkRecord victimDet victimAmp sourceDet sourceAmp coeff) := r in
  outDict ← get;
  (if bool_decide (outDict !! victimDet = None) then
     put (<[victimDet := newEntry]> outDict)
   else mret tt);;
  if bool_decide (sourceDet = victimDet) then
    onEntry victimDet (λ e, Returned (set_metadata <["DETECTOR" := victimDet]> e));;
    onEntry victimDet (λ e, Returned (set_metadata <["DETECTOR_SERIAL" := "UNKNOWN"]> e));;
    onEntry victimDet (λ e, Returned (set_DETECTOR victimDet e));;
    onEntry victimDet (λ e, Returned (set_DETECTOR_SERIAL "UNKNOWN" e));;
    onEntry victimDet (λ e,
      m ← setCell (coeffs e) victimAmp sourceAmp coeff;
      Returned (set_coeffs m e))
  else
    outDict ← get;
    e ← lift (getitem outDict victimDet);
    (if bool_decide (interChip e !! sourceDet = None) then
       onEntry victimDet (λ e, Returned (set_interChip <[sourceDet := zeros 2 2]> e))
     else mret tt);;
    onEntry victimDet (λ e,
      m ← getitem (interChip e) sourceDet;
      m' ← setCell m victimAmp sourceAmp coeff;
      Returned (set_interChip <[sourceDet := m']> e)).

(** Lines 68-119: the body of the loop for one line of the file. *)
Definition loopBody (line : string) : M (gmap string Entry) unit :=
  let li := PyStr.strip line in
  if negb (PyStr.startswith li "#") then
    r ← lift (decode li);
    store r
  else mret tt.

(** Lines 67-119: the loop over the lines of the file. *)
Fixpoint forLines (lines : list string) : M (gmap string Entry) unit :=
  match lines with
  | [] => mret tt
  | line :: rest => loopBody line;; forLines rest
  end.

(** [readFile(fromFile)], [fromFile] given by its lines. The first
    component is the local [outDict] when the function ends: with
    [Returned tt] it is the dictionary the function returns, with
    [Raised e] it is the dictionary at the moment [e] is raised. *)
Definition readFile (fromFile : list string) : gmap string Entry * outcome unit :=
  forLines fromFile ∅.

(** ** [makeDetectorCrosstalk] *)

(** The calls made on the collaborators, in order. *)
Inductive Call : Type :=
  | FromDict (dataDict : Entry)        (* [CrosstalkCalib.fromDict] *)
  | UpdateMetadata (setDate : bool)    (* [decamCT.updateMetadata] *)
  | GetCrosstalkDir                    (* [DecamMapper.getCrosstalkDir] *)
  | WriteFits (path : string).         (* [decamCT.writeFits] *)

(** [makeDetectorCrosstalk(dataDict)], the collaborators taken to return
    normally and [outDir] being what [getCrosstalkDir] returns: the
    dictionary [dataDict] as the function leaves it (line 22 mutates it),
    the calls made, and how the function ends. *)
Definition makeDetectorCrosstalk (outDir : string) (dataDict : Entry)
    : Entry * list Call * outcome unit :=
  let dataDict := set_coeffs (transpose (coeffs dataDict)) dataDict in
  let calls := [FromDict dataDict; UpdateMetadata true; GetCrosstalkDir] in
  match DETECTOR dataDict with
  | Some detName =>
      (dataDict, calls ++ [WriteFits (outDir +:+ "/" +:+ detName +:+ ".fits")],
       Returned tt)
  | None => (dataDict, calls, Raised (KeyError "DETECTOR"))
  end.

(** ** Vocabulary of the properties *)

(** A line the loop skips: its first character that is not white space
    is [#]. *)
Definition isComment (line : string) : bool :=
  PyStr.startswith (PyStr.strip line) "#".


(** The record of a line that is not a comment and decodes. *)
Definition recordOf (line : string) : option CrosstalkRecord :=
  if isComment line then None
  else match decode (PyStr.strip line) with
       | Returned r => Some r
       | Raised _ => None
       end.

(** The records of a file, in file order. *)
Definition records (lines : list string) : list CrosstalkRecord :=
  omap recordOf lines.

(** The array shape (2, 2). *)
Definition shape2x2 (m : Matrix) : Prop :=
  length m = 2 ∧ ∀ row, row ∈ m → length row = 2.

Definition wfEntry (e : Entry) : Prop :=
  shape2x2 (coeffs e) ∧ ∀ k m, interChip e !! k = Some m → shape2x2 m.

Definition wf (outDict : gmap string Entry) : Prop :=
  ∀ k e, outDict !! k = Some e → wfEntry e.

(** The array after [m[i][j] = x], inside the array. *)
Definition updCell (m : Matrix) (i j : nat) (x : F) : Matrix :=
  alter (<[j := x]>) i m.

(** The entry of the victim detector after lines 110-119, from the entry
    [e] it has after lines 98-108. *)
Definition stored (r : CrosstalkRecord) (e : Entry) : Entry :=
  if bool_decide (sourceDet r = victimDet r) then
    set_coeffs (updCell (coeffs e) (victimAmp r) (sourceAmp r) (coeff r))
      (set_DETECTOR_SERIAL "UNKNOWN"
        (set_DETECTOR (victimDet r)
          (set_metadata <["DETECTOR_SERIAL" := "UNKNOWN"]>
            (set_metadata <["DETECTOR" := victimDet r]> e))))
  else
    set_interChip
      <[sourceDet r :=
          updCell (default (zeros 2 2) (interChip e !! sourceDet r))
                  (victimAmp r) (sourceAmp r) (coeff r)]> e.

(** [outDict] after the loop body has stored one record. *)
Definition applyRecord (outDict : gmap string Entry) (r : CrosstalkRecord)
    : gmap string Entry :=
  <[victimDet r := stored r (default newEntry (outDict !! victimDet r))]> outDict.

Definition replay (rs : list CrosstalkRecord) (outDict : gmap string Entry)
    : gmap string Entry :=
  foldl applyRecord outDict rs.

(** The record addresses the cell [i][j] of the matrix that victim [vd]
    keeps for source [sd]. *)
Definition targets (vd sd : string) (i j : nat) (r : CrosstalkRecord) : bool :=
  bool_decide (victimDet r = vd) && bool_decide (sourceDet r = sd)
  && bool_decide (victimAmp r = i) && bool_decide (sourceAmp r = j).

(** The coefficient of the last record of [rs] that addresses the cell. *)
Definition lastCoeff (vd sd : string) (i j : nat) (rs : list CrosstalkRecord)
    : option F :=
  coeff <$> last (filter (λ r, targets vd sd i j r = true) rs).

(** [rs] has a record whose victim and source are both [d]. *)
Definition hasSelfRecord (d : string) (rs : list CrosstalkRecord) : bool :=
  existsb (λ r, bool_decide (victimDet r = d) && bool_decide (sourceDet r = d)) rs.


(** The [PropertyList] of the entry of detector [d], by whether a record
    of [d] with itself has been stored. *)
Definition expectedMetadata (self : bool) (d : string) : gmap string string :=
  if self then
    <["DETECTOR_SERIAL" := "UNKNOWN"]>
      (<["DETECTOR" := d]> {["OBSTYPE" := "CROSSTALK"]})
  else {["OBSTYPE" := "CROSSTALK"]}.

(** What the entry of victim [vd] is once the records [rs] are stored. *)
Record entryInv (rs : list CrosstalkRecord) (vd : string) (e : Entry) : Prop := {
  inv_wf : wfEntry e;
  inv_hasCrosstalk : hasCrosstalk e = true;
  inv_nAmp : nAmp e = 2;
  inv_crosstalkShape : crosstalkShape e = (2, 2);
  inv_metadata : metadata e = expectedMetadata (hasSelfRecord vd rs) vd;
  inv_DETECTOR : DETECTOR e = if hasSelfRecord vd rs then Some vd else None;
  inv_DETECTOR_SERIAL :
    DETECTOR_SERIAL e = if hasSelfRecord vd rs then Some "UNKNOWN" else None;
  inv_coeffs : ∀ i j, i < 2 → j < 2 →
    cell (coeffs e) i j = Some (default fzero (lastCoeff vd vd i j rs));
  inv_interChip_Some : ∀ sd m, interChip e !! sd = Some m →
    sd ≠ vd
    ∧ (∃ r, r ∈ rs ∧ victimDet r = vd ∧ sourceDet r = sd)
    ∧ ∀ i j, i < 2 → j < 2 →
        cell m i j = Some (default fzero (lastCoeff vd sd i j rs));
  inv_interChip_None : ∀ sd, interChip e !! sd = None → sd ≠ vd →
    ∀ r, r ∈ rs → victimDet r = vd → sourceDet r ≠ sd
}.

(** The cell a record addresses. *)
Definition cellOf (r : CrosstalkRecord) : string * string * nat * nat :=
  (victimDet r, sourceDet r, victimAmp r, sourceAmp r).

(** The keys of the dictionary [readFile] returns, in iteration order:
    line 99 stores a victim detector when a record names it first. *)
Definition insertionOrder (rs : list CrosstalkRecord) : list string :=
  firstSeen [] (victimDet <$> rs).

(** The keys of [outDict[vd]['interChip']] in iteration order: line 118
    stores a source detector when a record of victim [vd] names it first. *)
Definition sourcesInOrder (vd : string) (rs : list CrosstalkRecord) : list string :=
  firstSeen []
    (sourceDet <$> filter (λ r, victimDet r = vd ∧ sourceDet r ≠ vd) rs).

(** ** The script body (lines 123-147) *)

(** What the script does to the outside, in order. The messages printed
    are kept by their parts, not formatted. *)
Inductive Output : Type :=
  | PrintExists (dir : string)         (* line 135 *)
  | PrintReplacing (dir : string)      (* line 137 *)
  | PrintCreating (dir : string)       (* line 139 *)
  | Makedirs (dir : string)            (* line 140 *)
  | PrintHasCrosstalk (detName : string) (b : bool)     (* line 143 *)
  | PrintCoeff (m : Matrix)                             (* line 144 *)
  | PrintInterChip (source : string) (m : Matrix)       (* line 146 *)
  | Collaborator (c : Call).

(** How the script ends: after its last statement, by [sys.exit], or by an
    exception nobody catches. *)
Inductive Ending : Type :=
  | Completed
  | SysExit (code : nat)
  | Uncaught (e : exn).

(** Lines 145-146 for the sources in [order]. *)
Definition printInterChip (ic : gmap string Matrix) (order : list string)
    : list Output :=
  omap (λ source, PrintInterChip source <$> ic !! source) order.

(** Lines 141-147 for the detectors in [order]: the dictionary when the
    loop ends ([makeDetectorCrosstalk] mutates the entry it is given), the
    outputs, and how the loop ends. [rs] are the records of the file, for
    the iteration order of [interChip]. *)
Fixpoint forDetectors (verbose : bool) (outDir : string)
    (rs : list CrosstalkRecord) (order : list string)
    (outDict : gmap string Entry)
    : gmap string Entry * list Output * Ending :=
  match order with
  | [] => (outDict, [], Completed)
  | detName :: rest =>
      match outDict !! detName with
      | None => (outDict, [], Uncaught (KeyError detName))
      | Some e =>
          let prints :=
            if verbose then
              PrintHasCrosstalk detName (hasCrosstalk e)
              :: PrintCoeff (coeffs e)
              :: printInterChip (interChip e) (sourcesInOrder detName rs)
            else [] in
          let '(e', calls, o) := makeDetectorCrosstalk outDir e in
          let outDict' := <[detName := e']> outDict in
          let outs := prints ++ (Collaborator <$> calls) in
          match o with
          | Raised ex => (outDict', outs, Uncaught ex)
          | Returned _ =>
              let '(outDict'', outs', ending) :=
                forDetectors verbose outDir rs rest outDict' in
              (outDict'', outs ++ outs', ending)
          end
      end
  end.

(** Lines 130-147. [verbose] and [force] are the flags of the command
    line, [fromFile] the lines of the file named on it, [crosstalkDir]
    what [DecamMapper.getCrosstalkDir()] returns and [dirExists] what
    [os.path.exists(crosstalkDir)] returns. *)
Definition main (verbose force : bool) (fromFile : list string)
    (crosstalkDir : string) (dirExists : bool) : list Output * Ending :=
  match readFile fromFile with
  | (_, Raised e) => ([], Uncaught e)
  | (outDict, Returned _) =>
      let start := [Collaborator GetCrosstalkDir] in
      if dirExists && negb force then
        (start ++ [PrintExists crosstalkDir], SysExit 1)
      else
        let prepare :=
          if dirExists then [PrintReplacing crosstalkDir]
          else [PrintCreating crosstalkDir; Makedirs crosstalkDir] in
        let rs := records fromFile in
        let '(_, outs, ending) :=
          forDetectors verbose crosstalkDir rs (insertionOrder rs) outDict in
        (start ++ prepare ++ outs, ending)
  end.

(** The paths handed to [writeFits], in order. *)
Definition written (outs : list Output) : list string :=
  omap (λ o, match o with Collaborator (WriteFits path) => Some path | _ => None end)
       outs.

(** The output is a message printed. *)
Definition isPrint (o : Output) : bool :=
  match o with
  | Collaborator _ | Makedirs _ => false
  | _ => true
  end.

(** The outputs without the messages printed. *)
Definition silent (outs : list Output) : list Output :=
  filter (λ o, isPrint o = false) outs.

(** ** Lemmas on the monad and on arrays *)

Lemma bind_run {S A B} (m : M S A) (k : A → M S B) (s : S) :
  (m ≫= k) s = match m s with
               | (s', Returned a) => k a s'
               | (s', Raised e) => (s', Raised e)
               end.
Proof. reflexivity. Qed.

Lemma shape2x2_inv (m : Matrix) :
  shape2x2 m ↔ ∃ a b c d, m = [[a; b]; [c; d]].
Proof.
  split.
  - intros [Hl Hr].
    destruct m as [|r0 [|r1 [|? ?]]]; simplify_eq/=.
    pose proof (Hr r0 ltac:(set_solver)) as H0.
    pose proof (Hr r1 ltac:(set_solver)) as H1.
    destruct r0 as [|a [|b [|? ?]]]; simplify_eq/=.
    destruct r1 as [|c [|d [|? ?]]]; simplify_eq/=.
    by exists a, b, c, d.
  - intros (a & b & c & d & ->). split; [done|].
    intros row [->|[->|[]%elem_of_nil]%elem_of_cons]%elem_of_cons; done.
Qed.

Lemma shape2x2_zeros : shape2x2 (zeros 2 2).
Proof. apply shape2x2_inv. by exists fzero, fzero, fzero, fzero. Qed.

Lemma cell_zeros (i j : nat) : i < 2 → j < 2 → cell (zeros 2 2) i j = Some fzero.
Proof. intros Hi Hj. by destruct i as [|[|?]], j as [|[|?]]; try lia. Qed.

Lemma setCell_updCell (m : Matrix) (i j : nat) (x : F) :
  shape2x2 m → i < 2 → j < 2 → setCell m i j x = Returned (updCell m i j x).
Proof.
  intros (a & b & c & d & ->)%shape2x2_inv Hi Hj.
  by destruct i as [|[|?]], j as [|[|?]]; try lia.
Qed.

Lemma shape2x2_updCell (m : Matrix) (i j : nat) (x : F) :
  shape2x2 m → shape2x2 (updCell m i j x).
Proof.
  intros (a & b & c & d & ->)%shape2x2_inv. apply shape2x2_inv.
  destruct i as [|[|?]], j as [|[|?]]; cbn; eauto.
Qed.

Lemma cell_updCell (m : Matrix) (i j i' j' : nat) (x : F) :
  shape2x2 m → i < 2 → j < 2 →
  cell (updCell m i j x) i' j'
  = if bool_decide (i' = i ∧ j' = j) then Some x else cell m i' j'.
Proof.
  intros (a & b & c & d & ->)%shape2x2_inv Hi Hj.
  destruct i as [|[|?]], j as [|[|?]]; try lia;
    destruct i' as [|[|?]], j' as [|[|?]]; by cbn.
Qed.

Lemma cell_transpose (m : Matrix) (i j : nat) :
  shape2x2 m → cell (transpose m) i j = cell m j i.
Proof.
  intros (a & b & c & d & ->)%shape2x2_inv.
  by destruct i as [|[|?]], j as [|[|?]].
Qed.

(** ** The loop body *)

Lemma onEntry_run (k : string) (f : Entry → outcome Entry)
    (outDict : gmap string Entry) (e e' : Entry) :
  outDict !! k = Some e → f e = Returned e' →
  onEntry k f outDict = (<[k := e']> outDict, Returned tt).
Proof.
  intros Hk Hf. unfold onEntry. rewrite bind_run. cbn.
  rewrite bind_run. unfold lift, getitem. rewrite Hk.
  rewrite bind_run, Hf. reflexivity.
Qed.

Lemma wfEntry_newEntry : wfEntry newEntry.
Proof. split; [apply shape2x2_zeros|]. intros k m. cbn. by rewrite lookup_empty. Qed.

Lemma wf_default (outDict : gmap string Entry) (k : string) :
  wf outDict → wfEntry (default newEntry (outDict !! k)).
Proof.
  intros Hwf. destruct (outDict !! k) as [e|] eqn:Hk; cbn.
  - by apply (Hwf k).
  - apply wfEntry_newEntry.
Qed.

Lemma wfEntry_interChip_default (e : Entry) (k : string) :
  wfEntry e → shape2x2 (default (zeros 2 2) (interChip e !! k)).
Proof.
  intros [_ Hi]. destruct (interChip e !! k) as [m|] eqn:Hk; cbn.
  - by apply (Hi k).
  - apply shape2x2_zeros.
Qed.

(** Lines 98-119 never raise on a well-formed [outDict]: they store the
    record as [applyRecord] says. *)
Lemma store_run (r : CrosstalkRecord) (outDict : gmap string Entry) :
  wf outDict → victimAmp r < 2 → sourceAmp r < 2 →
  store r outDict = (applyRecord outDict r, Returned tt).
Proof.
  intros Hwf Hv Hs. destruct r as [vd va sd sa c]; cbn in Hv, Hs.
  unfold applyRecord, stored; cbn [victimDet sourceDet victimAmp sourceAmp coeff].
  pose proof (wf_default outDict vd Hwf) as He0.
  set (e0 := default newEntry (outDict !! vd)) in *.
  unfold store. rewrite bind_run. cbn [get].
  set (d1 := <[vd := e0]> outDict).
  assert (Hd1 : ((if bool_decide (outDict !! vd = None)
                  then put (<[vd := newEntry]> outDict) else mret tt) outDict
                 : gmap string Entry * outcome unit) = (d1, Returned tt)).
  { subst d1 e0. case_bool_decide as Hn.
    - rewrite Hn. reflexivity.
    - destruct (outDict !! vd) as [e|] eqn:Hk; [|done]. cbn.
      by rewrite insert_id. }
  rewrite bind_run, Hd1. clear Hd1.
  assert (H1 : d1 !! vd = Some e0) by (subst d1; apply lookup_insert_eq).
  assert (Hins : ∀ e', <[vd := e']> d1 = <[vd := e']> outDict)
    by (intros e'; subst d1; apply insert_insert_eq).
  destruct (decide (sd = vd)) as [Hsd|Hsd];
    [rewrite !(bool_decide_eq_true_2 _ Hsd)|rewrite !(bool_decide_eq_false_2 _ Hsd)].
  - rewrite bind_run.
    erewrite onEntry_run; [|exact H1|reflexivity].
    rewrite Hins, bind_run.
    erewrite onEntry_run; [|apply lookup_insert_eq|reflexivity].
    rewrite insert_insert_eq, bind_run.
    erewrite onEntry_run; [|apply lookup_insert_eq|reflexivity].
    rewrite insert_insert_eq, bind_run.
    erewrite onEntry_run; [|apply lookup_insert_eq|reflexivity].
    rewrite insert_insert_eq.
    erewrite onEntry_run; [|apply lookup_insert_eq|].
    + rewrite insert_insert_eq. reflexivity.
    + cbn. rewrite setCell_updCell; [reflexivity|apply He0|done..].
  - rewrite bind_run. cbn [get]. rewrite bind_run. unfold lift at 1, getitem at 1.
    rewrite H1.
    pose proof (wfEntry_interChip_default e0 sd He0) as Hm0.
    destruct (interChip e0 !! sd) as [m|] eqn:Hk.
    + rewrite bool_decide_eq_false_2 by done. rewrite bind_run. cbn.
      erewrite onEntry_run; [|exact H1|].
      * rewrite Hins. reflexivity.
      * cbn. unfold getitem. rewrite Hk. cbn.
        rewrite setCell_updCell; [reflexivity|exact Hm0|done..].
    + rewrite bool_decide_eq_true_2 by done. rewrite bind_run.
      erewrite onEntry_run; [|exact H1|reflexivity].
      rewrite Hins.
      erewrite onEntry_run; [|apply lookup_insert_eq|].
      * rewrite insert_insert_eq. reflexivity.
      * cbn. unfold getitem. rewrite lookup_insert_eq. cbn.
        rewrite setCell_updCell; [|exact Hm0|done..]. cbn.
        unfold set_interChip; cbn. by rewrite insert_insert_eq.
Qed.

Lemma ampOf_Returned (tok : string) (a : AmpLabel) :
  ampOf tok = Returned a → PyStr.contains (ampChar a) tok = true.
Proof.
  unfold ampOf.
  destruct (PyStr.contains "A" tok) eqn:HA; [intros [= <-]; exact HA|].
  destruct (PyStr.contains "B" tok) eqn:HB; [intros [= <-]; exact HB|done].
Qed.

(** What a line that decodes looks like. *)
Lemma decode_Returned (li : string) (r : CrosstalkRecord) :
  decode li = Returned r ↔
  ∃ v s t va sa,
    PyStr.split li !! 0 = Some v ∧ PyStr.split li !! 1 = Some s ∧
    PyStr.split li !! 2 = Some t ∧
    pyfloat t = Some (coeff r) ∧
    ampOf v = Returned va ∧ ampOf s = Returned sa ∧
    detMap !! PyStr.remove (ampChar va) v = Some (victimDet r) ∧
    detMap !! PyStr.remove (ampChar sa) s = Some (sourceDet r) ∧
    victimAmp r = ampIndexMap va ∧ sourceAmp r = ampIndexMap sa.
Proof.
  unfold decode, index, getitem. split.
  - destruct (PyStr.split li !! 0) as [v|]; [|done].
    destruct (PyStr.split li !! 1) as [s|]; [|done].
    destruct (PyStr.split li !! 2) as [t|]; [|done]. cbn.
    destruct (pyfloat t) as [c|] eqn:Hc; [|done]. cbn.
    destruct (ampOf v) as [va|] eqn:Hva; [|done]. cbn.
    destruct (ampOf s) as [sa|] eqn:Hsa; [|done]. cbn.
    destruct (detMap !! PyStr.remove (ampChar va) v) as [vd|] eqn:Hvd; [|done]. cbn.
    destruct (detMap !! PyStr.remove (ampChar sa) s) as [sd|] eqn:Hsd; [|done]. cbn.
    intros [= <-]. exists v, s, t, va, sa.
    repeat (split; [first [reflexivity|assumption]|]). reflexivity.
  - intros (v & s & t & va & sa & -> & -> & -> & Hc & Hva & Hsa & Hvd & Hsd & Hi & Hj).
    cbn. rewrite Hc. cbn. rewrite Hva. cbn. rewrite Hsa. cbn.
    rewrite Hvd. cbn. rewrite Hsd. cbn.
    destruct r; cbn in *. by subst.
Qed.

Lemma ampIndexMap_lt (a : AmpLabel) : ampIndexMap a < 2.
Proof. destruct a; cbn; lia. Qed.

Lemma decode_amp_lt (li : string) (r : CrosstalkRecord) :
  decode li = Returned r → victimAmp r < 2 ∧ sourceAmp r < 2.
Proof.
  intros (v & s & t & va & sa & _ & _ & _ & _ & _ & _ & _ & _ & -> & ->)%decode_Returned.
  split; apply ampIndexMap_lt.
Qed.

Lemma recordOf_amp_lt (line : string) (r : CrosstalkRecord) :
  recordOf line = Some r → victimAmp r < 2 ∧ sourceAmp r < 2.
Proof.
  unfold recordOf. destruct (isComment line); [done|].
  destruct (decode (PyStr.strip line)) as [r'|] eqn:Hd; [|done].
  intros [= <-]. by apply (decode_amp_lt (PyStr.strip line)).
Qed.

Lemma loopBody_comment (line : string) (outDict : gmap string Entry) :
  isComment line = true → loopBody line outDict = (outDict, Returned tt).
Proof. unfold loopBody, isComment. by intros ->. Qed.

Lemma loopBody_raise (line : string) (outDict : gmap string Entry) (e : exn) :
  isComment line = false → decode (PyStr.strip line) = Raised e →
  loopBody line outDict = (outDict, Raised e).
Proof.
  unfold loopBody, isComment. intros -> Hd. cbn.
  rewrite bind_run. unfold lift. by rewrite Hd.
Qed.

Lemma loopBody_record (line : string) (outDict : gmap string Entry)
    (r : CrosstalkRecord) :
  wf outDict → recordOf line = Some r →
  loopBody line outDict = (applyRecord outDict r, Returned tt).
Proof.
  intros Hwf Hr. destruct (recordOf_amp_lt line r Hr) as [Hv Hs].
  revert Hr. unfold recordOf, loopBody, isComment.
  destruct (PyStr.startswith (PyStr.strip line) "#"); [done|].
  destruct (decode (PyStr.strip line)) as [r'|] eqn:Hd; [|done].
  intros [= ->]. cbn. rewrite bind_run. unfold lift.
  by apply store_run.
Qed.

(** The three ways the loop body can end. *)
Lemma loopBody_cases (line : string) (outDict : gmap string Entry) :
  wf outDict →
  (isComment line = true ∧ recordOf line = None
     ∧ loopBody line outDict = (outDict, Returned tt))
  ∨ (∃ r, isComment line = false ∧ recordOf line = Some r
       ∧ loopBody line outDict = (applyRecord outDict r, Returned tt))
  ∨ (∃ e, isComment line = false ∧ recordOf line = None
       ∧ decode (PyStr.strip line) = Raised e
       ∧ loopBody line outDict = (outDict, Raised e)).
Proof.
  intros Hwf. destruct (isComment line) eqn:Hc.
  - left. split; [done|]. split; [|by apply loopBody_comment].
    unfold recordOf. by rewrite Hc.
  - right. destruct (decode (PyStr.strip line)) as [r|e] eqn:Hd.
    + left. exists r.
      assert (recordOf line = Some r) as Hr
        by (unfold recordOf; by rewrite Hc, Hd).
      split; [done|]. split; [done|]. by apply loopBody_record.
    + right. exists e. split; [done|]. split.
      * unfold recordOf. by rewrite Hc, Hd.
      * split; [done|]. by apply loopBody_raise.
Qed.

Lemma wfEntry_stored (r : CrosstalkRecord) (e : Entry) :
  wfEntry e → wfEntry (stored r e).
Proof.
  intros He. pose proof He as [Hc Hi]. unfold stored. case_bool_decide.
  - split; cbn; [by apply shape2x2_updCell|done].
  - split; cbn; [done|]. intros k m.
    rewrite lookup_insert. case_decide.
    + intros [= <-]. apply shape2x2_updCell.
      by apply wfEntry_interChip_default.
    + apply Hi.
Qed.

Lemma wf_empty : wf ∅.
Proof. intros k e. by rewrite lookup_empty. Qed.

Lemma wf_applyRecord (outDict : gmap string Entry) (r : CrosstalkRecord) :
  wf outDict → wf (applyRecord outDict r).
Proof.
  intros Hwf k e. unfold applyRecord. rewrite lookup_insert. case_decide.
  - intros [= <-]. by apply wfEntry_stored, wf_default.
  - apply Hwf.
Qed.

Lemma wf_replay (rs : list CrosstalkRecord) (outDict : gmap string Entry) :
  wf outDict → wf (replay rs outDict).
Proof.
  revert outDict. induction rs as [|r rs IH]; intros outDict Hwf; [done|].
  cbn. by apply IH, wf_applyRecord.
Qed.

(** ** The loop *)

Lemma forLines_cons (line : string) (rest : list string)
    (outDict : gmap string Entry) :
  forLines (line :: rest) outDict
  = match loopBody line outDict with
    | (outDict', Returned _) => forLines rest outDict'
    | (outDict', Raised e) => (outDict', Raised e)
    end.
Proof. reflexivity. Qed.

Lemma forLines_app (pre post : list string) (outDict : gmap string Entry) :
  forLines (pre ++ post) outDict
  = match forLines pre outDict with
    | (outDict', Returned _) => forLines post outDict'
    | (outDict', Raised e) => (outDict', Raised e)
    end.
Proof.
  revert outDict. induction pre as [|line pre IH]; intros outDict; [done|].
  rewrite <- app_comm_cons, !forLines_cons.
  destruct (loopBody line outDict) as [outDict' [[]|e]]; [apply IH|done].
Qed.

(** A loop that ends normally has stored the records of its lines. *)
Lemma forLines_Returned (lines : list string) (outDict outDict' : gmap string Entry) :
  wf outDict → forLines lines outDict = (outDict', Returned tt) →
  outDict' = replay (records lines) outDict
  ∧ Forall (λ line, isComment line = true ∨ is_Some (recordOf line)) lines.
Proof.
  revert outDict. induction lines as [|line lines IH]; intros outDict Hwf.
  - intros [= <-]. by split.
  - rewrite forLines_cons.
    destruct (loopBody_cases line outDict Hwf)
      as [(Hc & Hr & ->)|[(r & Hc & Hr & ->)|(e & Hc & Hr & Hd & ->)]]; [| |done].
    + intros [-> Hall]%IH; [|done]. split.
      * unfold records; cbn. by rewrite Hr.
      * constructor; [by left|done].
    + intros [-> Hall]%IH; [|by apply wf_applyRecord]. split.
      * unfold records; cbn. by rewrite Hr.
      * constructor; [right; by exists r|done].
Qed.

(** A loop all of whose lines are comments or decode ends normally. *)
Lemma forLines_total (lines : list string) (outDict : gmap string Entry) :
  wf outDict →
  Forall (λ line, isComment line = true ∨ is_Some (recordOf line)) lines →
  forLines lines outDict = (replay (records lines) outDict, Returned tt).
Proof.
  intros Hwf Hall. revert outDict Hwf.
  induction Hall as [|line lines Hline Hall IH]; intros outDict Hwf; [done|].
  rewrite forLines_cons.
  destruct (loopBody_cases line outDict Hwf)
    as [(Hc & Hr & ->)|[(r & Hc & Hr & ->)|(e & Hc & Hr & Hd & ->)]].
  - rewrite IH by done. unfold records; cbn. by rewrite Hr.
  - rewrite IH by (by apply wf_applyRecord). unfold records; cbn. by rewrite Hr.
  - destruct Hline as [Hline|[r Hline]]; congruence.
Qed.

(** A loop that raises does so while decoding some line, with [outDict]
    as the lines before it left it. *)
Lemma forLines_Raised (lines : list string) (outDict outDict' : gmap string Entry)
    (e : exn) :
  wf outDict → forLines lines outDict = (outDict', Raised e) →
  ∃ pre line post,
    lines = pre ++ line :: post
    ∧ forLines pre outDict = (outDict', Returned tt)
    ∧ isComment line = false
    ∧ decode (PyStr.strip line) = Raised e
    ∧ loopBody line outDict' = (outDict', Raised e).
Proof.
  revert outDict. induction lines as [|line lines IH]; intros outDict Hwf; [done|].
  rewrite forLines_cons.
  destruct (loopBody_cases line outDict Hwf)
    as [(Hc & Hr & Hb)|[(r & Hc & Hr & Hb)|(e' & Hc & Hr & Hd & Hb)]]; rewrite Hb.
  - intros (pre & l & post & -> & Hpre & ? & ? & ?)%IH; [|done].
    exists (line :: pre), l, post. split; [done|].
    rewrite forLines_cons, Hb. done.
  - intros (pre & l & post & -> & Hpre & ? & ? & ?)%IH; [|by apply wf_applyRecord].
    exists (line :: pre), l, post. split; [done|].
    rewrite forLines_cons, Hb. done.
  - intros [= <- <-]. by exists [], line, lines.
Qed.

(** ** What the stored records leave in [outDict] *)

Lemma replay_snoc (rs : list CrosstalkRecord) (r : CrosstalkRecord)
    (outDict : gmap string Entry) :
  replay (rs ++ [r]) outDict = applyRecord (replay rs outDict) r.
Proof. unfold replay. by rewrite foldl_app. Qed.

Lemma lookup_applyRecord (outDict : gmap string Entry) (r : CrosstalkRecord)
    (k : string) :
  applyRecord outDict r !! k
  = if decide (victimDet r = k)
    then Some (stored r (default newEntry (outDict !! k)))
    else outDict !! k.
Proof.
  unfold applyRecord. rewrite lookup_insert. by case_decide; subst.
Qed.

Lemma lastCoeff_snoc (vd sd : string) (i j : nat)
    (rs : list CrosstalkRecord) (r : CrosstalkRecord) :
  lastCoeff vd sd i j (rs ++ [r])
  = if targets vd sd i j r then Some (coeff r) else lastCoeff vd sd i j rs.
Proof.
  unfold lastCoeff. rewrite filter_app.
  destruct (targets vd sd i j r) eqn:Ht.
  - rewrite (filter_cons_True _ r []) by done.
    rewrite filter_nil, last_snoc. done.
  - rewrite (filter_cons_False _ r []) by (by rewrite Ht).
    rewrite filter_nil, app_nil_r. done.
Qed.

Lemma lastCoeff_None (vd sd : string) (i j : nat) (rs : list CrosstalkRecord) :
  (∀ r, r ∈ rs → victimDet r = vd → sourceDet r ≠ sd) →
  lastCoeff vd sd i j rs = None.
Proof.
  induction rs as [|r rs IH] using rev_ind; intros Hno; [done|].
  rewrite lastCoeff_snoc.
  destruct (targets vd sd i j r) eqn:Ht.
  - unfold targets in Ht.
    apply andb_prop in Ht as [[[Hv Hs]%andb_prop _]%andb_prop _].
    apply bool_decide_eq_true in Hv, Hs.
    destruct (Hno r); [set_solver|done..].
  - apply IH. intros r' Hr'. apply Hno. set_solver.
Qed.

Lemma hasSelfRecord_snoc (d : string) (rs : list CrosstalkRecord)
    (r : CrosstalkRecord) :
  hasSelfRecord d (rs ++ [r])
  = hasSelfRecord d rs
    || (bool_decide (victimDet r = d) && bool_decide (sourceDet r = d)).
Proof. unfold hasSelfRecord. rewrite existsb_app. cbn. by rewrite orb_false_r. Qed.

Lemma hasSelfRecord_false (d : string) (rs : list CrosstalkRecord) :
  (∀ r, r ∈ rs → victimDet r ≠ d) → hasSelfRecord d rs = false.
Proof.
  induction rs as [|r rs IH]; intros Hno; [done|].
  change (hasSelfRecord d (r :: rs))
    with (bool_decide (victimDet r = d) && bool_decide (sourceDet r = d)
          || hasSelfRecord d rs).
  rewrite IH by (intros r' Hr'; apply Hno; set_solver).
  rewrite bool_decide_eq_false_2; [done|]. apply Hno. set_solver.
Qed.

Lemma hasSelfRecord_true (d : string) (rs : list CrosstalkRecord) :
  hasSelfRecord d rs = true ↔ ∃ r, r ∈ rs ∧ victimDet r = d ∧ sourceDet r = d.
Proof.
  unfold hasSelfRecord. rewrite existsb_exists. split.
  - intros (r & Hin & [Hv%bool_decide_eq_true Hs%bool_decide_eq_true]%andb_prop).
    exists r. by rewrite list_elem_of_In.
  - intros (r & Hin & Hv & Hs). exists r. rewrite <- list_elem_of_In.
    split; [done|]. by rewrite !bool_decide_eq_true_2.
Qed.

Lemma expectedMetadata_self (b : bool) (d : string) :
  <["DETECTOR_SERIAL" := "UNKNOWN"]> (<["DETECTOR" := d]> (expectedMetadata b d))
  = expectedMetadata true d.
Proof.
  destruct b; [|done]. unfold expectedMetadata.
  apply map_eq. intros k. rewrite !lookup_insert.
  repeat case_decide; done.
Qed.

Lemma entryInv_newEntry (rs : list CrosstalkRecord) (vd : string) :
  (∀ r, r ∈ rs → victimDet r ≠ vd) → entryInv rs vd newEntry.
Proof.
  intros Hno. pose proof (hasSelfRecord_false vd rs Hno) as Hself.
  split; try done; try (by rewrite Hself).
  - apply wfEntry_newEntry.
  - intros i j Hi Hj. rewrite lastCoeff_None; [by apply cell_zeros|].
    intros r Hr Hv. by destruct (Hno r).
  - intros sd Hsd _ r Hr Hv. by destruct (Hno r).
Qed.

Lemma targets_false_victim (vd sd : string) (i j : nat) (r : CrosstalkRecord) :
  victimDet r ≠ vd → targets vd sd i j r = false.
Proof. intros H. unfold targets. by rewrite (bool_decide_eq_false_2 _ H). Qed.

Lemma targets_false_source (vd sd : string) (i j : nat) (r : CrosstalkRecord) :
  sourceDet r ≠ sd → targets vd sd i j r = false.
Proof.
  intros H. unfold targets. rewrite (bool_decide_eq_false_2 _ H).
  by rewrite andb_false_r.
Qed.

Lemma targets_same (r : CrosstalkRecord) (i j : nat) :
  targets (victimDet r) (sourceDet r) i j r
  = bool_decide (i = victimAmp r ∧ j = sourceAmp r).
Proof.
  unfold targets. rewrite !bool_decide_eq_true_2 by done. cbn.
  repeat case_bool_decide; try done; lia.
Qed.

(** A record of another victim leaves what is known of [vd]'s entry. *)
Lemma entryInv_other (rs : list CrosstalkRecord) (r : CrosstalkRecord)
    (vd : string) (e : Entry) :
  victimDet r ≠ vd → entryInv rs vd e → entryInv (rs ++ [r]) vd e.
Proof.
  intros Hne He.
  assert (Hself : hasSelfRecord vd (rs ++ [r]) = hasSelfRecord vd rs).
  { rewrite hasSelfRecord_snoc, (bool_decide_eq_false_2 _ Hne). cbn.
    apply orb_false_r. }
  assert (Hlast : ∀ sd i j, lastCoeff vd sd i j (rs ++ [r]) = lastCoeff vd sd i j rs).
  { intros. by rewrite lastCoeff_snoc, targets_false_victim. }
  destruct He. split; try done; rewrite ?Hself; try done.
  - intros i j Hi Hj. rewrite Hlast. auto.
  - intros sd m Hm.
    destruct (inv_interChip_Some0 sd m Hm) as (Hsd & (r' & Hr' & Hv & Hs) & Hcell).
    split; [done|]. split; [exists r'; by rewrite elem_of_app; auto|].
    intros i j Hi Hj. rewrite Hlast. auto.
  - intros sd Hn Hsd r' [Hr'| ->%list_elem_of_singleton]%elem_of_app Hv; [|done].
    by apply inv_interChip_None0.
Qed.

(** A record of victim [vd] brings its entry up to date. *)
Lemma entryInv_stored (rs : list CrosstalkRecord) (r : CrosstalkRecord) (e : Entry) :
  victimAmp r < 2 → sourceAmp r < 2 →
  entryInv rs (victimDet r) e → entryInv (rs ++ [r]) (victimDet r) (stored r e).
Proof.
  intros Hva Hsa He. pose proof (wfEntry_stored r e (inv_wf _ _ _ He)) as Hwf.
  destruct He. unfold stored in *.
  destruct (decide (sourceDet r = victimDet r)) as [Hs|Hs].
  - rewrite (bool_decide_eq_true_2 _ Hs) in *.
    assert (Hself : hasSelfRecord (victimDet r) (rs ++ [r]) = true).
    { rewrite hasSelfRecord_snoc, !bool_decide_eq_true_2 by done.
      apply orb_true_r. }
    split; rewrite ?Hself; cbn; try done.
    + rewrite inv_metadata0. apply expectedMetadata_self.
    + intros i j Hi Hj. rewrite lastCoeff_snoc.
      rewrite cell_updCell; [|apply inv_wf0|done..].
      rewrite <- Hs at 2. rewrite targets_same.
      case_bool_decide; [done|]. auto.
    + intros sd m Hm.
      destruct (inv_interChip_Some0 sd m Hm) as (Hsd & (r' & Hr' & Hv & Hs') & Hcell).
      split; [done|]. split; [exists r'; by rewrite elem_of_app; auto|].
      intros i j Hi Hj.
      rewrite lastCoeff_snoc, targets_false_source by congruence. auto.
    + intros sd Hn Hsd r' [Hr'| ->%list_elem_of_singleton]%elem_of_app Hv.
      * by apply inv_interChip_None0.
      * congruence.
  - rewrite (bool_decide_eq_false_2 _ Hs) in *.
    assert (Hself : hasSelfRecord (victimDet r) (rs ++ [r])
                    = hasSelfRecord (victimDet r) rs).
    { rewrite hasSelfRecord_snoc, (bool_decide_eq_false_2 _ Hs).
      by rewrite andb_false_r, orb_false_r. }
    split; rewrite ?Hself; cbn; try done.
    + intros i j Hi Hj.
      rewrite lastCoeff_snoc, targets_false_source by done. auto.
    + intros sd m. rewrite lookup_insert. case_decide as Hsd.
      * subst sd. intros [= <-]. split; [done|].
        split; [exists r; by rewrite elem_of_app, list_elem_of_singleton; auto|].
        intros i j Hi Hj. rewrite lastCoeff_snoc, targets_same.
        rewrite cell_updCell;
          [|by apply wfEntry_interChip_default|done..].
        case_bool_decide; [done|].
        destruct (interChip e !! sourceDet r) as [m0|] eqn:Hm0; cbn.
        -- by apply (inv_interChip_Some0 (sourceDet r) m0).
        -- rewrite cell_zeros by done.
           rewrite lastCoeff_None; [done|]. by apply inv_interChip_None0.
      * intros Hm.
        destruct (inv_interChip_Some0 sd m Hm) as (Hsd' & (r' & Hr' & Hv & Hs') & Hcell).
        split; [done|]. split; [exists r'; by rewrite elem_of_app; auto|].
        intros i j Hi Hj.
        rewrite lastCoeff_snoc, targets_false_source by done. auto.
    + intros sd. rewrite lookup_insert. case_decide as Hsd; [done|].
      intros Hn Hsd' r' [Hr'| ->%list_elem_of_singleton]%elem_of_app Hv.
      * by apply inv_interChip_None0.
      * done.
Qed.

(** The entries of [outDict] after the records [rs] of a file. *)
Lemma replay_inv (rs : list CrosstalkRecord) (vd : string) :
  Forall (λ r, victimAmp r < 2 ∧ sourceAmp r < 2) rs →
  match replay rs ∅ !! vd with
  | Some e => (∃ r, r ∈ rs ∧ victimDet r = vd) ∧ entryInv rs vd e
  | None => ∀ r, r ∈ rs → victimDet r ≠ vd
  end.
Proof.
  induction rs as [|r rs IH] using rev_ind; intros Hb.
  - unfold replay; cbn. rewrite lookup_empty. intros r Hr. set_solver.
  - apply Forall_app in Hb as [Hb [[Hva Hsa] _]%Forall_cons].
    specialize (IH Hb). rewrite replay_snoc, lookup_applyRecord.
    case_decide as Hv.
    + subst vd. split; [exists r; by rewrite elem_of_app, list_elem_of_singleton; auto|].
      apply entryInv_stored; [done..|].
      destruct (replay rs ∅ !! victimDet r) as [e|]; cbn.
      * apply IH.
      * by apply entryInv_newEntry.
    + destruct (replay rs ∅ !! vd) as [e|].
      * destruct IH as [(r' & Hr' & Hv') He]. split; [exists r'; by rewrite elem_of_app; auto|].
        by apply entryInv_other.
      * intros r' [Hr'| ->%list_elem_of_singleton]%elem_of_app; [by apply IH|done].
Qed.

Lemma records_amp_lt (lines : list string) :
  Forall (λ r, victimAmp r < 2 ∧ sourceAmp r < 2) (records lines).
Proof.
  apply Forall_forall. intros r (line & Hline & Hr)%list_elem_of_omap.
  by apply (recordOf_amp_lt line).
Qed.

(** [readFile] that returns: the entries are those of the file's records. *)
Lemma readFile_Returned (fromFile : list string) (outDict : gmap string Entry) :
  readFile fromFile = (outDict, Returned tt) →
  outDict = replay (records fromFile) ∅
  ∧ ∀ vd e, outDict !! vd = Some e →
      (∃ r, r ∈ records fromFile ∧ victimDet r = vd)
      ∧ entryInv (records fromFile) vd e.
Proof.
  intros [-> _]%forLines_Returned; [|apply wf_empty]. split; [done|].
  intros vd e He.
  pose proof (replay_inv (records fromFile) vd (records_amp_lt fromFile)) as H.
  by rewrite He in H.
Qed.

(** ** Blank lines and comment lines *)







(** ** Records of a file and the last record of a cell *)

Lemma recordOf_intro (line : string) (r : CrosstalkRecord) :
  isComment line = false → decode (PyStr.strip line) = Returned r →
  recordOf line = Some r.
Proof. intros Hc Hd. unfold recordOf. by rewrite Hc, Hd. Qed.

Lemma records_app (l1 l2 : list string) :
  records (l1 ++ l2) = records l1 ++ records l2.
Proof. apply omap_app. Qed.

Lemma records_cons_Some (line : string) (lines : list string) (r : CrosstalkRecord) :
  recordOf line = Some r → records (line :: lines) = r :: records lines.
Proof. intros Hr. unfold records; cbn. by rewrite Hr. Qed.

Lemma lastCoeff_None_iff (vd sd : string) (i j : nat) (rs : list CrosstalkRecord) :
  lastCoeff vd sd i j rs = None ↔ Forall (λ r, targets vd sd i j r = false) rs.
Proof.
  induction rs as [|r rs IH] using rev_ind; [done|].
  rewrite lastCoeff_snoc, Forall_app, Forall_singleton.
  destruct (targets vd sd i j r); [|by rewrite IH; intuition].
  split; [done|]. by intros [_ ?].
Qed.

Lemma lastCoeff_last (vd sd : string) (i j : nat)
    (rs1 rs2 : list CrosstalkRecord) (r : CrosstalkRecord) :
  targets vd sd i j r = true →
  Forall (λ r', targets vd sd i j r' = false) rs2 →
  lastCoeff vd sd i j (rs1 ++ r :: rs2) = Some (coeff r).
Proof.
  intros Hr. induction rs2 as [|r2 rs2 IH] using rev_ind; intros Hno.
  - by rewrite lastCoeff_snoc, Hr.
  - apply Forall_app in Hno as [Hno Hr2].
    apply Forall_cons in Hr2 as [Hr2 _].
    rewrite app_comm_cons, app_assoc, lastCoeff_snoc, Hr2.
    by apply IH.
Qed.

Lemma readFile_wf (fromFile : list string) (outDict : gmap string Entry) (o : outcome unit) :
  readFile fromFile = (outDict, o) → wf outDict.
Proof.
  unfold readFile. destruct o as [[]|e].
  - intros [-> _]%forLines_Returned; [|apply wf_empty].
    apply wf_replay, wf_empty.
  - intros (pre & line & post & _ & [-> _]%forLines_Returned & _)%forLines_Raised;
      try apply wf_empty.
    apply wf_replay, wf_empty.
Qed.

(** [decode] on a line of at least three tokens whose third is a number. *)
Lemma decode_tokens (li v s t : string) (rest : list string) (c : F) :
  PyStr.split li = v :: s :: t :: rest → pyfloat t = Some c →
  decode li
  = (va ← ampOf v;
     sa ← ampOf s;
     vd ← getitem detMap (PyStr.remove (ampChar va) v);
     sd ← getitem detMap (PyStr.remove (ampChar sa) s);
     Returned (mkRecord vd (ampIndexMap va) sd (ampIndexMap sa) c)).
Proof. intros Hsplit Hc. unfold decode. rewrite Hsplit. cbn. by rewrite Hc. Qed.

Lemma readFile_snoc_raise (pre post : list string) (line : string)
    (outDict : gmap string Entry) (e : exn) :
  readFile pre = (outDict, Returned tt) →
  isComment line = false → decode (PyStr.strip line) = Raised e →
  readFile (pre ++ line :: post) = (outDict, Raised e).
Proof.
  intros Hpre Hc Hd. unfold readFile in *.
  by rewrite forLines_app, Hpre, forLines_cons, (loopBody_raise line outDict e).
Qed.




(** ** Properties of [readFile] and [makeDetectorCrosstalk] *)

(** C1: when the lines [pre] have been read and the next line decodes to
    the record [r], the loop body replaces the entry of [r]'s victim
    (the entry of [outDict], or the one just created) by an entry [e']
    such that: if victim and source detector are equal, [coeffs] has
    received the coefficient at [victimAmp][sourceAmp] and [interChip]
    is the same map as before; if they differ, [interChip] has received
    at the source detector its matrix (the zero matrix when it had none)
    with the coefficient written at [victimAmp][sourceAmp], and [coeffs]
    is the same matrix as before. *)
Theorem readFile_self_or_interChip (pre : list string) (line : string)
    (outDict : gmap string Entry) (r : CrosstalkRecord) :
  readFile pre = (outDict, Returned tt) →
  recordOf line = Some r →
  let e0 := default newEntry (outDict !! victimDet r) in
  ∃ e',
    loopBody line outDict = (<[victimDet r := e']> outDict, Returned tt)
    ∧ readFile (pre ++ [line]) = (<[victimDet r := e']> outDict, Returned tt)
    ∧ if decide (victimDet r = sourceDet r) then
        setCell (coeffs e0) (victimAmp r) (sourceAmp r) (coeff r)
          = Returned (coeffs e')
        ∧ cell (coeffs e') (victimAmp r) (sourceAmp r) = Some (coeff r)
        ∧ interChip e' = interChip e0
      else
        ∃ m',
          setCell (default (zeros 2 2) (interChip e0 !! sourceDet r))
                  (victimAmp r) (sourceAmp r) (coeff r) = Returned m'
          ∧ interChip e' = <[sourceDet r := m']> (interChip e0)
          ∧ cell m' (victimAmp r) (sourceAmp r) = Some (coeff r)
          ∧ coeffs e' = coeffs e0.
Proof.
  intros Hpre Hr e0.
  pose proof (readFile_wf pre outDict _ Hpre) as Hwf.
  destruct (recordOf_amp_lt line r Hr) as [Hva Hsa].
  pose proof (wf_default outDict (victimDet r) Hwf) as He0. fold e0 in He0.
  exists (stored r e0). split; [by apply loopBody_record|]. split.
  { unfold readFile in *. rewrite forLines_app, Hpre, forLines_cons.
    by rewrite (loopBody_record line outDict r). }
  unfold stored. case_decide as Hd.
  - rewrite bool_decide_eq_true_2 by done. cbn.
    split; [apply setCell_updCell; [apply He0|done..]|]. split; [|done].
    rewrite cell_updCell; [|apply He0|done..].
    by rewrite bool_decide_eq_true_2.
  - rewrite bool_decide_eq_false_2 by done. cbn.
    pose proof (wfEntry_interChip_default e0 (sourceDet r) He0) as Hm.
    eexists. split; [by apply setCell_updCell|]. split; [done|]. split; [|done].
    rewrite cell_updCell by done. by rewrite bool_decide_eq_true_2.
Qed.

(** C3: for every entry of the dictionary [readFile] returns, the first
    call of [makeDetectorCrosstalk] hands [fromDict] a dictionary whose
    [coeffs] is the transpose of the entry's: its cell [i][j] is the
    entry's cell [j][i] for [i], [j] in {0, 1}; and the matrix handed
    over differs from the one accumulated as soon as the latter is not
    symmetric. *)
Theorem makeDetectorCrosstalk_transposes (fromFile : list string)
    (outDict : gmap string Entry) (d outDir : string) (e : Entry) :
  readFile fromFile = (outDict, Returned tt) →
  outDict !! d = Some e →
  ∃ handed calls o,
    makeDetectorCrosstalk outDir e = (handed, FromDict handed :: calls, o)
    ∧ coeffs handed = transpose (coeffs e)
    ∧ shape2x2 (coeffs handed)
    ∧ (∀ i j, i < 2 → j < 2 → cell (coeffs handed) i j = cell (coeffs e) j i)
    ∧ (cell (coeffs e) 0 1 ≠ cell (coeffs e) 1 0 → coeffs handed ≠ coeffs e).
Proof.
  intros Hread He.
  pose proof (readFile_wf _ _ _ Hread d e He) as [Hc _].
  assert (Ht : ∀ i j, cell (transpose (coeffs e)) i j = cell (coeffs e) j i)
    by (intros; by apply cell_transpose).
  unfold makeDetectorCrosstalk.
  destruct (DETECTOR (set_coeffs (transpose (coeffs e)) e));
    do 3 eexists; (split; [reflexivity|]); cbn;
    (split; [done|]); (split; [|split; [by auto|]]).
  1,3: apply shape2x2_inv in Hc as (a & b & c & x & ->);
       apply shape2x2_inv; by do 4 eexists.
  all: intros Hne Heq; apply Hne; by rewrite <- (Ht 1 0), Heq.
Qed.

(** C4, as the code has it: every entry of the dictionary [readFile]
    returns has [hasCrosstalk] true and the pair [OBSTYPE: CROSSTALK] in
    its metadata, from its creation. If the file has a record of the
    detector with itself, the metadata is exactly [OBSTYPE], [DETECTOR]
    (the detector name) and [DETECTOR_SERIAL: UNKNOWN], and the fields
    [DETECTOR] and [DETECTOR_SERIAL] of the entry are set alike; if it
    has none, the metadata is [OBSTYPE: CROSSTALK] alone and the four
    [DETECTOR] fields are unset. *)
Theorem readFile_metadata (fromFile : list string)
    (outDict : gmap string Entry) (d : string) (e : Entry) :
  readFile fromFile = (outDict, Returned tt) →
  outDict !! d = Some e →
  hasCrosstalk e = true
  ∧ metadata e !! "OBSTYPE" = Some "CROSSTALK"
  ∧ if hasSelfRecord d (records fromFile) then
      metadata e = {[ "OBSTYPE" := "CROSSTALK"; "DETECTOR" := d;
                      "DETECTOR_SERIAL" := "UNKNOWN" ]}
      ∧ metadata e !! "DETECTOR" = Some d
      ∧ metadata e !! "DETECTOR_SERIAL" = Some "UNKNOWN"
      ∧ DETECTOR e = Some d
      ∧ DETECTOR_SERIAL e = Some "UNKNOWN"
    else
      metadata e = {[ "OBSTYPE" := "CROSSTALK" ]}
      ∧ metadata e !! "DETECTOR" = None
      ∧ metadata e !! "DETECTOR_SERIAL" = None
      ∧ DETECTOR e = None
      ∧ DETECTOR_SERIAL e = None.
Proof.
  intros [_ Hinv]%readFile_Returned He.
  destruct (Hinv d e He) as [_ []].
  split; [done|]. rewrite inv_metadata0, inv_DETECTOR0, inv_DETECTOR_SERIAL0.
  destruct (hasSelfRecord d (records fromFile)); unfold expectedMetadata.
  - split; [by simplify_map_eq|]. split; [|by simplify_map_eq].
    apply map_eq. intros k. rewrite !lookup_insert, !lookup_singleton.
    repeat case_decide; simplify_eq; done.
  - by simplify_map_eq.
Qed.

(** C9: in the dictionary [readFile] returns, every matrix has the shape
    (2, 2), and every cell [i][j] that no record of the file addresses
    holds the zero the matrix was created with: in [coeffs] of victim
    [d] when no record has victim [d], source [d] and the amps [i], [j];
    in [interChip[sd]] of victim [d] when no record has victim [d],
    source [sd] and the amps [i], [j]. *)
Theorem readFile_zero_fill (fromFile : list string)
    (outDict : gmap string Entry) (d : string) (e : Entry) :
  readFile fromFile = (outDict, Returned tt) →
  outDict !! d = Some e →
  (shape2x2 (coeffs e)
   ∧ ∀ i j, i < 2 → j < 2 →
       Forall (λ r, targets d d i j r = false) (records fromFile) →
       cell (coeffs e) i j = Some fzero)
  ∧ ∀ sd m, interChip e !! sd = Some m →
      shape2x2 m
      ∧ ∀ i j, i < 2 → j < 2 →
          Forall (λ r, targets d sd i j r = false) (records fromFile) →
          cell m i j = Some fzero.
Proof.
  intros [_ Hinv]%readFile_Returned He.
  destruct (Hinv d e He) as [_ []]. destruct inv_wf0 as [Hc Hi].
  split; [split; [done|]|].
  - intros i j Hi' Hj' Hno%lastCoeff_None_iff.
    by rewrite inv_coeffs0, Hno.
  - intros sd m Hm. split; [by apply (Hi sd)|].
    intros i j Hi' Hj' Hno%lastCoeff_None_iff.
    destruct (inv_interChip_Some0 sd m Hm) as (_ & _ & Hcell).
    by rewrite Hcell, Hno.
Qed.

(** C10: when [readFile] raises [e], the file splits into the lines
    before the failing line, the failing line, and the rest; the
    exception comes from decoding the failing line (token extraction,
    [float()], amp labels, [detMap] lookups) and is one of the four
    kinds; the loop body on that line leaves [outDict] as it found it;
    and [outDict] at the raise is the dictionary [readFile] returns on
    the earlier lines alone, which holds their records. *)
Theorem readFile_raise_atomic (fromFile : list string)
    (outDict : gmap string Entry) (e : exn) :
  readFile fromFile = (outDict, Raised e) →
  ∃ pre line post,
    fromFile = pre ++ line :: post
    ∧ readFile pre = (outDict, Returned tt)
    ∧ outDict = replay (records pre) ∅
    ∧ isComment line = false
    ∧ decode (PyStr.strip line) = Raised e
    ∧ loopBody line outDict = (outDict, Raised e)
    ∧ (e = IndexError ∨ (∃ tok, e = ValueError tok)
       ∨ (∃ tok, e = RuntimeError ("Unknown amp: " +:+ tok))
       ∨ (∃ key, e = KeyError key ∧ detMap !! key = None)).
Proof.
  intros (pre & line & post & -> & Hpre & Hc & Hd & Hb)%forLines_Raised;
    [|apply wf_empty].
  exists pre, line, post. split; [done|]. split; [done|].
  split; [by apply forLines_Returned in Hpre as [-> _]; [|apply wf_empty]|].
  split; [done|]. split; [done|]. split; [done|].
  revert Hd. unfold decode, index, getitem.
  destruct (PyStr.split (PyStr.strip line) !! 0) as [v|]; [|intros [= <-]; auto].
  destruct (PyStr.split (PyStr.strip line) !! 1) as [s|]; [|intros [= <-]; auto].
  destruct (PyStr.split (PyStr.strip line) !! 2) as [t|]; [|intros [= <-]; auto].
  cbn. destruct (pyfloat t) as [c|]; cbn; [|intros [= <-]; eauto].
  assert (Hamp : ∀ tok, (∃ a, ampOf tok = Returned a)
                   ∨ ampOf tok = Raised (RuntimeError ("Unknown amp: " +:+ tok))).
  { intros tok. unfold ampOf. repeat case_match; eauto. }
  destruct (Hamp v) as [[va ->]| ->]; cbn; [|intros [= <-]; eauto 6].
  destruct (Hamp s) as [[sa ->]| ->]; cbn; [|intros [= <-]; eauto 6].
  destruct (detMap !! PyStr.remove (ampChar va) v) as [vd|] eqn:Hvd; cbn;
    [|intros [= <-]; eauto 8].
  destruct (detMap !! PyStr.remove (ampChar sa) s) as [sd|] eqn:Hsd; cbn;
    [|intros [= <-]; eauto 8].
  done.
Qed.

(** C2: on the file of the three lines [ccd01A ccd01B 0.0012],
    [ccd01B ccd01A 0.0009], [ccd01A ccd02B 0.0003], with [c12], [c09],
    [c03] the floats of the three coefficients, [readFile] returns a
    dictionary whose only entry is that of S29, with [coeffs]
    [[0, c12], [c09, 0]], [interChip] holding for S30 the matrix
    [[0, c03], [0, 0]] and nothing else, [hasCrosstalk] true and
    [DETECTOR] = S29 in the metadata. *)
Theorem readFile_example (c12 c09 c03 : F) :
  pyfloat "0.0012" = Some c12 →
  pyfloat "0.0009" = Some c09 →
  pyfloat "0.0003" = Some c03 →
  ∃ e,
    readFile [ "ccd01A ccd01B 0.0012" +:+ LF;
               "ccd01B ccd01A 0.0009" +:+ LF;
               "ccd01A ccd02B 0.0003" +:+ LF ]
      = ({[ "S29" := e ]}, Returned tt)
    ∧ coeffs e = [[fzero; c12]; [c09; fzero]]
    ∧ interChip e = {[ "S30" := [[fzero; c03]; [fzero; fzero]] ]}
    ∧ hasCrosstalk e = true
    ∧ metadata e !! "DETECTOR" = Some "S29".
Proof.
  intros H12 H09 H03.
  assert (H1 : recordOf ("ccd01A ccd01B 0.0012" +:+ LF)
               = Some (mkRecord "S29" 0 "S29" 1 c12)).
  { apply recordOf_intro; [by vm_compute|]. apply decode_Returned.
    exists "ccd01A", "ccd01B", "0.0012", AmpA, AmpB.
    repeat split; try exact H12; by vm_compute. }
  assert (H2 : recordOf ("ccd01B ccd01A 0.0009" +:+ LF)
               = Some (mkRecord "S29" 1 "S29" 0 c09)).
  { apply recordOf_intro; [by vm_compute|]. apply decode_Returned.
    exists "ccd01B", "ccd01A", "0.0009", AmpB, AmpA.
    repeat split; try exact H09; by vm_compute. }
  assert (H3 : recordOf ("ccd01A ccd02B 0.0003" +:+ LF)
               = Some (mkRecord "S29" 0 "S30" 1 c03)).
  { apply recordOf_intro; [by vm_compute|]. apply decode_Returned.
    exists "ccd01A", "ccd02B", "0.0003", AmpA, AmpB.
    repeat split; try exact H03; by vm_compute. }
  eexists. split.
  - unfold readFile. rewrite forLines_total; [|apply wf_empty|].
    + rewrite (records_cons_Some _ _ _ H1), (records_cons_Some _ _ _ H2),
        (records_cons_Some _ _ _ H3).
      vm_compute. reflexivity.
    + repeat (apply Forall_cons; split; [right; eauto|]). by apply Forall_nil.
  - by vm_compute.
Qed.




(** C8: in a file all of whose lines are comments or decode, let line
    [b] come after line [a], both addressing the same cell (same victim
    and source detector, same victim and source amp) with different
    coefficients, no line after [b] addressing that cell. Then
    [readFile] returns normally, and the cell, in [coeffs] of the victim
    when source and victim are equal and in its [interChip] matrix of
    the source otherwise, holds the coefficient of [b] and not the one
    of [a]. *)
Theorem readFile_last_write_wins (l1 l2 l3 : list string) (a b : string)
    (ra rb : CrosstalkRecord) :
  Forall (λ line, isComment line = true ∨ is_Some (recordOf line))
         (l1 ++ a :: l2 ++ b :: l3) →
  recordOf a = Some ra → recordOf b = Some rb →
  victimDet ra = victimDet rb → sourceDet ra = sourceDet rb →
  victimAmp ra = victimAmp rb → sourceAmp ra = sourceAmp rb →
  coeff ra ≠ coeff rb →
  Forall (λ r, targets (victimDet rb) (sourceDet rb) (victimAmp rb) (sourceAmp rb) r
               = false) (records l3) →
  ∃ outDict e,
    readFile (l1 ++ a :: l2 ++ b :: l3) = (outDict, Returned tt)
    ∧ outDict !! victimDet rb = Some e
    ∧ ∃ m,
        (if decide (sourceDet rb = victimDet rb) then coeffs e = m
         else interChip e !! sourceDet rb = Some m)
        ∧ cell m (victimAmp rb) (sourceAmp rb) = Some (coeff rb)
        ∧ cell m (victimAmp rb) (sourceAmp rb) ≠ Some (coeff ra).
Proof.
  intros Hall Ha Hb _ _ _ _ Hne Hl3.
  set (fromFile := l1 ++ a :: l2 ++ b :: l3) in *.
  assert (Hread : readFile fromFile = (replay (records fromFile) ∅, Returned tt))
    by (apply forLines_total; [apply wf_empty|done]).
  destruct (readFile_Returned _ _ Hread) as [_ Hinv].
  destruct (recordOf_amp_lt b rb Hb) as [Hvb Hsb].
  assert (Hrs : records fromFile
                = (records l1 ++ ra :: records l2) ++ rb :: records l3).
  { subst fromFile.
    rewrite records_app, (records_cons_Some _ _ _ Ha), records_app,
      (records_cons_Some _ _ _ Hb).
    by rewrite <- app_assoc. }
  assert (Hin : rb ∈ records fromFile)
    by (rewrite Hrs, elem_of_app, elem_of_cons; auto).
  assert (Hlast : lastCoeff (victimDet rb) (sourceDet rb) (victimAmp rb)
                    (sourceAmp rb) (records fromFile) = Some (coeff rb)).
  { rewrite Hrs. apply lastCoeff_last; [|done].
    rewrite targets_same. by apply bool_decide_eq_true_2. }
  pose proof (replay_inv (records fromFile) (victimDet rb)
                (records_amp_lt fromFile)) as Hrb.
  destruct (replay (records fromFile) ∅ !! victimDet rb) as [e|] eqn:He;
    [|by destruct (Hrb rb Hin)].
  destruct Hrb as [_ []].
  exists (replay (records fromFile) ∅), e. split; [done|]. split; [done|].
  assert (Hfin : ∀ m, cell m (victimAmp rb) (sourceAmp rb) = Some (coeff rb) →
                      cell m (victimAmp rb) (sourceAmp rb) ≠ Some (coeff ra))
    by (intros m ->; congruence).
  case_decide as Hself.
  - exists (coeffs e). split; [done|].
    assert (cell (coeffs e) (victimAmp rb) (sourceAmp rb) = Some (coeff rb))
      by (rewrite inv_coeffs0 by done; by rewrite <- Hself at 2; rewrite Hlast).
    auto.
  - destruct (interChip e !! sourceDet rb) as [m|] eqn:Hm.
    + exists m. split; [done|].
      destruct (inv_interChip_Some0 _ m Hm) as (_ & _ & Hcell).
      assert (cell m (victimAmp rb) (sourceAmp rb) = Some (coeff rb))
        by (rewrite Hcell by done; by rewrite Hlast).
      auto.
    + by destruct (inv_interChip_None0 _ Hm Hself rb Hin).
Qed.

(** ** Further properties of [readFile] *)

(** *** The table [detMap] and the tokens *)

Lemma detMap_key_no_amp (k v : string) :
  detMap !! k = Some v →
  PyStr.contains "A" k = false ∧ PyStr.contains "B" k = false.
Proof.
  intros Hin%elem_of_list_to_map_2%list_elem_of_In.
  assert (Hall : forallb (λ p : string * string,
                    negb (PyStr.contains "A" p.1) && negb (PyStr.contains "B" p.1))
                   detMapItems = true) by (vm_compute; reflexivity).
  rewrite forallb_forall in Hall. specialize (Hall _ Hin). cbn in Hall.
  apply andb_prop in Hall as [HA%negb_true_iff HB%negb_true_iff]. done.
Qed.

Lemma detMap_inj (k1 k2 v : string) :
  detMap !! k1 = Some v → detMap !! k2 = Some v → k1 = k2.
Proof.
  intros H1%elem_of_list_to_map_2%list_elem_of_In
         H2%elem_of_list_to_map_2%list_elem_of_In.
  assert (Hall : forallb (λ p : string * string,
                    forallb (λ q : string * string,
                       implb (String.eqb p.2 q.2) (String.eqb p.1 q.1))
                      detMapItems)
                   detMapItems = true) by (vm_compute; reflexivity).
  rewrite forallb_forall in Hall. specialize (Hall _ H1).
  rewrite forallb_forall in Hall. specialize (Hall _ H2). cbn in Hall.
  rewrite String.eqb_refl in Hall. by apply String.eqb_eq.
Qed.

Lemma app_String (c : ascii) (s t : string) :
  String c s +:+ t = String c (s +:+ t).
Proof. reflexivity. Qed.

Lemma app_empty_l (t : string) : "" +:+ t = t.
Proof. reflexivity. Qed.

Lemma contains_app (c : ascii) (s t : string) :
  PyStr.contains c (s +:+ t) = PyStr.contains c s || PyStr.contains c t.
Proof.
  induction s as [|d s IH]; [done|].
  rewrite app_String. cbn. by case_decide.
Qed.

Lemma remove_app (c : ascii) (s t : string) :
  PyStr.remove c (s +:+ t) = PyStr.remove c s +:+ PyStr.remove c t.
Proof.
  induction s as [|d s IH]; [done|].
  rewrite app_String. cbn. case_decide; [done|].
  by rewrite app_String, IH.
Qed.

Lemma remove_absent (c : ascii) (s : string) :
  PyStr.contains c s = false → PyStr.remove c s = s.
Proof.
  induction s as [|d s IH]; [done|]. cbn.
  case_decide; [done|]. intros Hs. by rewrite IH.
Qed.

Lemma contains_remove_ne (c d : ascii) (s : string) :
  c ≠ d → PyStr.contains c (PyStr.remove d s) = PyStr.contains c s.
Proof.
  intros Hne. induction s as [|x s IH]; [done|]. cbn.
  destruct (decide (d = x)) as [->|Hd].
  - by rewrite decide_False.
  - cbn. by rewrite IH.
Qed.

Lemma app_empty_r (s : string) : s +:+ "" = s.
Proof. induction s as [|c s IH]; [done|]. by rewrite app_String, IH. Qed.

(** A vendor identifier of the table followed by an amp letter. *)
Lemma token_round_trip (k v : string) (a : AmpLabel) :
  detMap !! k = Some v →
  ampOf (k +:+ String (ampChar a) "") = Returned a
  ∧ PyStr.remove (ampChar a) (k +:+ String (ampChar a) "") = k.
Proof.
  intros [HA HB]%detMap_key_no_amp. split.
  - unfold ampOf. rewrite !contains_app, HA, HB. by destruct a.
  - rewrite remove_app, remove_absent by (by destruct a).
    cbn. rewrite decide_True by done. apply app_empty_r.
Qed.

(** X1: a line whose first two tokens are identifiers of the table, each
    followed by an amp letter, and whose third token is a number, decodes
    to the record of the two detector names of the table, the indices of
    the two letters (A: 0, B: 1) and the number. *)
Theorem decode_round_trip (li k1 k2 v1 v2 t : string) (a1 a2 : AmpLabel)
    (rest : list string) (c : F) :
  PyStr.split li
    = (k1 +:+ String (ampChar a1) "") :: (k2 +:+ String (ampChar a2) "")
      :: t :: rest →
  detMap !! k1 = Some v1 → detMap !! k2 = Some v2 → pyfloat t = Some c →
  decode li = Returned (mkRecord v1 (ampIndexMap a1) v2 (ampIndexMap a2) c).
Proof.
  intros Hsplit H1 H2 Hc.
  destruct (token_round_trip k1 v1 a1 H1) as [Ha1 Hr1].
  destruct (token_round_trip k2 v2 a2 H2) as [Ha2 Hr2].
  rewrite (decode_tokens _ _ _ _ _ _ Hsplit Hc), Ha1. cbn. rewrite Ha2. cbn.
  rewrite Hr1, Hr2. unfold getitem. by rewrite H1, H2.
Qed.

(** X2: the table maps different identifiers to different detector
    names; so the test [sourceDet == victimDet] of a line that decodes
    holds exactly when its two tokens, the amp letter removed, are the
    same identifier. *)
Theorem self_iff_same_identifier (li : string) (r : CrosstalkRecord) :
  decode li = Returned r →
  ∃ v s va sa,
    PyStr.split li !! 0 = Some v ∧ PyStr.split li !! 1 = Some s
    ∧ ampOf v = Returned va ∧ ampOf s = Returned sa
    ∧ (sourceDet r = victimDet r
       ↔ PyStr.remove (ampChar sa) s = PyStr.remove (ampChar va) v).
Proof.
  intros (v & s & t & va & sa & Hv & Hs & _ & _ & Hva & Hsa & Hvd & Hsd & _)%decode_Returned.
  exists v, s, va, sa. repeat (split; [assumption|]). split.
  - intros Heq. rewrite <- Heq in Hvd. by apply (detMap_inj _ _ (sourceDet r)).
  - intros Heq. rewrite Heq in Hsd. congruence.
Qed.

(** A token that leads to a detector has one of the letters A, B only. *)
Lemma ampOf_lookup_one_letter (tok : string) (a : AmpLabel) (d : string) :
  ampOf tok = Returned a →
  detMap !! PyStr.remove (ampChar a) tok = Some d →
  PyStr.contains "A" tok = negb (PyStr.contains "B" tok).
Proof.
  intros Ha [HA HB]%detMap_key_no_amp. revert Ha. unfold ampOf.
  destruct (PyStr.contains "A" tok) eqn:HtA.
  - intros [= <-]. cbn in HB. by rewrite contains_remove_ne in HB by done; rewrite HB.
  - destruct (PyStr.contains "B" tok) eqn:HtB; [done|done].
Qed.

(** X3: a line that has, among its first two tokens, one with both
    letters A and B never decodes: the letter A is taken as the amp, the
    B stays in the detector label, and no identifier of the table has a B;
    the line raises. *)
Theorem both_letters_never_decode (li v s : string) :
  PyStr.split li !! 0 = Some v → PyStr.split li !! 1 = Some s →
  (PyStr.contains "A" v && PyStr.contains "B" v)
  || (PyStr.contains "A" s && PyStr.contains "B" s) = true →
  ∃ e, decode li = Raised e.
Proof.
  intros Hv Hs Hboth. destruct (decode li) as [r|e] eqn:Hd; [|by exists e].
  apply decode_Returned in Hd
    as (v' & s' & t & va & sa & Hv' & Hs' & _ & _ & Hva & Hsa & Hvd & Hsd & _).
  assert (v' = v) as -> by congruence. assert (s' = s) as -> by congruence.
  pose proof (ampOf_lookup_one_letter v va _ Hva Hvd) as H1.
  pose proof (ampOf_lookup_one_letter s sa _ Hsa Hsd) as H2.
  rewrite H1, H2 in Hboth.
  destruct (PyStr.contains "B" v), (PyStr.contains "B" s); discriminate Hboth.
Qed.

(** *** Malformed lines *)

(** X4: a line that is not a comment and has fewer than three tokens
    raises [IndexError], whatever its tokens are; [outDict] is as the
    lines before left it and the lines after are not read. *)
Theorem too_few_tokens_IndexError (pre post : list string) (line : string)
    (outDict : gmap string Entry) :
  readFile pre = (outDict, Returned tt) →
  isComment line = false →
  length (PyStr.split (PyStr.strip line)) < 3 →
  readFile (pre ++ line :: post) = (outDict, Raised IndexError).
Proof.
  intros Hpre Hc Hlen. apply readFile_snoc_raise; [done..|].
  unfold decode, index.
  destruct (PyStr.split (PyStr.strip line)) as [|v [|s [|t rest]]];
    [done..|cbn in Hlen; lia].
Qed.

(** X5: a line that is not a comment and whose third token is not a
    number raises [ValueError] for that token, before its first two
    tokens are looked at: also when they have no amp letter or name no
    detector of the table. *)
Theorem bad_coefficient_ValueError (pre post : list string) (line : string)
    (outDict : gmap string Entry) (v s t : string) (rest : list string) :
  readFile pre = (outDict, Returned tt) →
  isComment line = false →
  PyStr.split (PyStr.strip line) = v :: s :: t :: rest →
  pyfloat t = None →
  readFile (pre ++ line :: post) = (outDict, Raised (ValueError t)).
Proof.
  intros Hpre Hc Hsplit Ht. apply readFile_snoc_raise; [done..|].
  unfold decode. rewrite Hsplit. cbn. by rewrite Ht.
Qed.

(** X6: the loop body reads the first three tokens of a line only: two
    lines that are not comments and have the same first three tokens do
    the same to [outDict] and end alike. *)
Theorem tokens_after_third_ignored (l1 l2 : string) (outDict : gmap string Entry) :
  isComment l1 = false → isComment l2 = false →
  take 3 (PyStr.split (PyStr.strip l1)) = take 3 (PyStr.split (PyStr.strip l2)) →
  loopBody l1 outDict = loopBody l2 outDict.
Proof.
  unfold isComment. intros Hc1 Hc2 Htake. unfold loopBody. rewrite Hc1, Hc2. cbn.
  assert (Hdec : ∀ li, decode li
            = (let elem := take 3 (PyStr.split li) in
               victimDetAmp ← index elem 0;
               sourceDetAmp ← index elem 1;
               elem2 ← index elem 2;
               coeff ← from_option Returned (Raised (ValueError elem2)) (pyfloat elem2);
               victimAmp ← ampOf victimDetAmp;
               sourceAmp ← ampOf sourceDetAmp;
               victimDet ← getitem detMap (PyStr.remove (ampChar victimAmp) victimDetAmp);
               sourceDet ← getitem detMap (PyStr.remove (ampChar sourceAmp) sourceDetAmp);
               Returned (mkRecord victimDet (ampIndexMap victimAmp)
                                  sourceDet (ampIndexMap sourceAmp) coeff))).
  { intros li. unfold decode, index. cbv zeta.
    by rewrite !lookup_take_lt by lia. }
  by rewrite (Hdec (PyStr.strip l1)), (Hdec (PyStr.strip l2)), Htake.
Qed.

(** *** The keys of the dictionary *)

Lemma recordOf_canonical (line : string) (r : CrosstalkRecord) :
  recordOf line = Some r →
  (∃ k, detMap !! k = Some (victimDet r)) ∧ (∃ k, detMap !! k = Some (sourceDet r)).
Proof.
  unfold recordOf. destruct (isComment line); [done|].
  destruct (decode (PyStr.strip line)) as [r'|] eqn:Hd; [|done].
  intros [= <-].
  apply decode_Returned in Hd
    as (v & s & t & va & sa & _ & _ & _ & _ & _ & _ & Hvd & Hsd & _).
  eauto.
Qed.

(** X7: the keys of the dictionary [readFile] returns are the victim
    detectors of the records of the file: a detector that is named as
    source only has no entry. The keys of [interChip] of victim [d] are
    the source detectors, other than [d], of the records of victim [d]:
    [interChip] never has the victim's own name. *)
Theorem readFile_keys (fromFile : list string) (outDict : gmap string Entry) :
  readFile fromFile = (outDict, Returned tt) →
  (∀ d, is_Some (outDict !! d)
        ↔ ∃ r, r ∈ records fromFile ∧ victimDet r = d)
  ∧ ∀ d e sd, outDict !! d = Some e →
      (is_Some (interChip e !! sd)
       ↔ sd ≠ d ∧ ∃ r, r ∈ records fromFile ∧ victimDet r = d ∧ sourceDet r = sd).
Proof.
  intros [-> Hinv]%readFile_Returned. split.
  - intros d. split.
    + intros [e He]. by destruct (Hinv d e He).
    + intros (r & Hr & Hv).
      pose proof (replay_inv (records fromFile) d (records_amp_lt fromFile)) as H.
      destruct (replay (records fromFile) ∅ !! d) as [e|]; [by eexists|].
      by destruct (H r Hr).
  - intros d e sd He. destruct (Hinv d e He) as [_ []]. split.
    + intros [m Hm]. destruct (inv_interChip_Some0 sd m Hm) as (? & ? & _). done.
    + intros (Hne & r & Hr & Hv & Hs).
      destruct (interChip e !! sd) as [m|] eqn:Hm; [by eexists|].
      by destruct (inv_interChip_None0 sd Hm Hne r Hr Hv).
Qed.

(** X8: every key of the dictionary [readFile] returns, and every key of
    the [interChip] of its entries, is a detector name of the table
    [detMap]. *)
Theorem readFile_names_canonical (fromFile : list string)
    (outDict : gmap string Entry) (d : string) (e : Entry) :
  readFile fromFile = (outDict, Returned tt) →
  outDict !! d = Some e →
  (∃ k, detMap !! k = Some d)
  ∧ ∀ sd, is_Some (interChip e !! sd) → ∃ k, detMap !! k = Some sd.
Proof.
  intros [_ Hinv]%readFile_Returned He.
  destruct (Hinv d e He) as [(r & Hr & <-) []]. split.
  - apply list_elem_of_omap in Hr as (line & _ & Hr).
    by destruct (recordOf_canonical line r Hr).
  - intros sd [m Hm].
    destruct (inv_interChip_Some0 sd m Hm) as (_ & (r' & Hr' & _ & <-) & _).
    apply list_elem_of_omap in Hr' as (line & _ & Hr').
    by destruct (recordOf_canonical line r' Hr').
Qed.

(** X9: in every entry of the dictionary [readFile] returns, [nAmp] is 2,
    [crosstalkShape] is ([nAmp], [nAmp]), and [coeffs] and every matrix of
    [interChip] have [nAmp] rows of [nAmp] cells. *)
Theorem readFile_declared_shape (fromFile : list string)
    (outDict : gmap string Entry) (d : string) (e : Entry) :
  readFile fromFile = (outDict, Returned tt) →
  outDict !! d = Some e →
  nAmp e = 2
  ∧ crosstalkShape e = (nAmp e, nAmp e)
  ∧ ∀ m, (m = coeffs e ∨ ∃ sd, interChip e !! sd = Some m) →
      length m = nAmp e ∧ ∀ row, row ∈ m → length row = nAmp e.
Proof.
  intros [_ Hinv]%readFile_Returned He. destruct (Hinv d e He) as [_ []].
  rewrite inv_nAmp0. split; [done|]. split; [done|].
  destruct inv_wf0 as [Hc Hi]. intros m [->|[sd Hm]]; [done|by apply (Hi sd)].
Qed.

(** *** What the dictionary depends on *)

Lemma matrix_ext (m1 m2 : Matrix) :
  shape2x2 m1 → shape2x2 m2 →
  (∀ i j, i < 2 → j < 2 → cell m1 i j = cell m2 i j) → m1 = m2.
Proof.
  intros (a & b & c & d & ->)%shape2x2_inv (a' & b' & c' & d' & ->)%shape2x2_inv H.
  pose proof (H 0 0 ltac:(lia) ltac:(lia)) as H00.
  pose proof (H 0 1 ltac:(lia) ltac:(lia)) as H01.
  pose proof (H 1 0 ltac:(lia) ltac:(lia)) as H10.
  pose proof (H 1 1 ltac:(lia) ltac:(lia)) as H11.
  cbn in *. congruence.
Qed.

(** The facts of [entryInv] fix the entry. *)
Lemma entryInv_ext (rs : list CrosstalkRecord) (vd : string) (e e' : Entry) :
  entryInv rs vd e → entryInv rs vd e' → e = e'.
Proof.
  intros [] [].
  assert (coeffs e = coeffs e') as Hc.
  { apply matrix_ext; [apply inv_wf0|apply inv_wf1|].
    intros i j Hi Hj. by rewrite inv_coeffs0, inv_coeffs1. }
  assert (interChip e = interChip e') as Hi.
  { apply map_eq. intros sd.
    destruct (interChip e !! sd) as [m|] eqn:Hm,
             (interChip e' !! sd) as [m'|] eqn:Hm'; [| | |done].
    - f_equal.
      destruct (inv_interChip_Some0 sd m Hm) as (_ & _ & Hcell).
      destruct (inv_interChip_Some1 sd m' Hm') as (_ & _ & Hcell').
      apply matrix_ext; [by apply (proj2 inv_wf0 sd)|by apply (proj2 inv_wf1 sd)|].
      intros i j Hi Hj. by rewrite Hcell, Hcell'.
    - destruct (inv_interChip_Some0 sd m Hm) as (Hne & (r & Hr & Hv & Hs) & _).
      by destruct (inv_interChip_None1 sd Hm' Hne r Hr Hv).
    - destruct (inv_interChip_Some1 sd m' Hm') as (Hne & (r & Hr & Hv & Hs) & _).
      by destruct (inv_interChip_None0 sd Hm Hne r Hr Hv). }
  destruct e, e'; cbn in *. congruence.
Qed.

(** The facts of [entryInv] read the records through the pairs of victim
    and source detector that occur and the last coefficient of a cell. *)
Lemma entryInv_transfer (rs rs' : list CrosstalkRecord) (vd : string) (e : Entry) :
  (∀ d sd, (∃ r, r ∈ rs ∧ victimDet r = d ∧ sourceDet r = sd)
           ↔ (∃ r, r ∈ rs' ∧ victimDet r = d ∧ sourceDet r = sd)) →
  (∀ d sd i j, lastCoeff d sd i j rs = lastCoeff d sd i j rs') →
  entryInv rs vd e → entryInv rs' vd e.
Proof.
  intros Hpairs Hlast [].
  assert (Hself : hasSelfRecord vd rs' = hasSelfRecord vd rs).
  { destruct (hasSelfRecord vd rs) eqn:H1.
    - apply hasSelfRecord_true, Hpairs, hasSelfRecord_true, H1.
    - destruct (hasSelfRecord vd rs') eqn:H2; [|done].
      apply hasSelfRecord_true, Hpairs, hasSelfRecord_true in H2. congruence. }
  split; rewrite ?Hself; try done.
  - intros i j Hi Hj. rewrite <- Hlast. auto.
  - intros sd m Hm. destruct (inv_interChip_Some0 sd m Hm) as (Hne & Hr & Hcell).
    split; [done|]. split; [by apply Hpairs|].
    intros i j Hi Hj. rewrite <- Hlast. auto.
  - intros sd Hn Hne r Hr Hv Hs.
    destruct (proj2 (Hpairs vd sd)) as (r' & Hr' & Hv' & Hs'); [by exists r|].
    by destruct (inv_interChip_None0 sd Hn Hne r' Hr' Hv').
Qed.

Lemma replay_ext (rs rs' : list CrosstalkRecord) :
  Forall (λ r, victimAmp r < 2 ∧ sourceAmp r < 2) rs →
  Forall (λ r, victimAmp r < 2 ∧ sourceAmp r < 2) rs' →
  (∀ d sd, (∃ r, r ∈ rs ∧ victimDet r = d ∧ sourceDet r = sd)
           ↔ (∃ r, r ∈ rs' ∧ victimDet r = d ∧ sourceDet r = sd)) →
  (∀ d sd i j, lastCoeff d sd i j rs = lastCoeff d sd i j rs') →
  replay rs ∅ = replay rs' ∅.
Proof.
  intros Hb Hb' Hpairs Hlast. apply map_eq. intros d.
  pose proof (replay_inv rs d Hb) as H. pose proof (replay_inv rs' d Hb') as H'.
  destruct (replay rs ∅ !! d) as [e|], (replay rs' ∅ !! d) as [e'|]; [| | |done].
  - f_equal. destruct H as [_ He], H' as [_ He'].
    apply (entryInv_ext rs' d); [|done]. by apply (entryInv_transfer rs).
  - destruct H as [(r & Hr & Hv) _].
    destruct (proj1 (Hpairs d (sourceDet r))) as (r' & Hr' & Hv' & _); [by exists r|].
    by destruct (H' r' Hr').
  - destruct H' as [(r & Hr & Hv) _].
    destruct (proj2 (Hpairs d (sourceDet r))) as (r' & Hr' & Hv' & _); [by exists r|].
    by destruct (H r' Hr').
Qed.

(** X10: the dictionary [readFile] returns depends on the file through
    the pairs of victim and source detector of its records and, for each
    cell, the coefficient of the last record that addresses it: two files
    that agree on these give the same dictionary. *)
Theorem readFile_determined_by_last_writes (file1 file2 : list string)
    (out1 out2 : gmap string Entry) :
  readFile file1 = (out1, Returned tt) →
  readFile file2 = (out2, Returned tt) →
  (∀ d sd, (∃ r, r ∈ records file1 ∧ victimDet r = d ∧ sourceDet r = sd)
           ↔ (∃ r, r ∈ records file2 ∧ victimDet r = d ∧ sourceDet r = sd)) →
  (∀ d sd i j, lastCoeff d sd i j (records file1)
               = lastCoeff d sd i j (records file2)) →
  out1 = out2.
Proof.
  intros [-> _]%readFile_Returned [-> _]%readFile_Returned Hpairs Hlast.
  apply replay_ext; [apply records_amp_lt..|done|done].
Qed.

Lemma targets_cellOf (vd sd : string) (i j : nat) (r : CrosstalkRecord) :
  targets vd sd i j r = true ↔ cellOf r = (vd, sd, i, j).
Proof.
  unfold targets, cellOf. rewrite !andb_true_iff, !bool_decide_eq_true.
  split; [intros [[[-> ->] ->] ->]; done|intros [= -> -> -> ->]; done].
Qed.

Lemma filter_targets_length (vd sd : string) (i j : nat) (rs : list CrosstalkRecord) :
  NoDup (cellOf <$> rs) →
  length (filter (λ r, targets vd sd i j r = true) rs) ≤ 1.
Proof.
  induction rs as [|r rs IH]; [cbn; lia|].
  rewrite fmap_cons. intros [Hnotin Hnd]%NoDup_cons.
  destruct (targets vd sd i j r) eqn:Ht.
  - rewrite filter_cons_True by done. cbn.
    assert (filter (λ r', targets vd sd i j r' = true) rs = []) as ->; [|cbn; lia].
    destruct (filter (λ r', targets vd sd i j r' = true) rs) as [|r' l] eqn:Hf; [done|].
    assert (r' ∈ filter (λ r', targets vd sd i j r' = true) rs) as Hr'
      by (rewrite Hf; apply list_elem_of_here).
    apply list_elem_of_filter in Hr' as [Ht' Hin].
    destruct Hnotin. apply targets_cellOf in Ht, Ht'. rewrite Ht, <- Ht'.
    by apply list_elem_of_fmap_2.
  - rewrite filter_cons_False by (by rewrite Ht). by apply IH.
Qed.

Lemma lastCoeff_Permutation (vd sd : string) (i j : nat)
    (rs rs' : list CrosstalkRecord) :
  rs ≡ₚ rs' → NoDup (cellOf <$> rs) →
  lastCoeff vd sd i j rs = lastCoeff vd sd i j rs'.
Proof.
  intros Hp Hnd. unfold lastCoeff.
  pose proof (filter_targets_length vd sd i j rs Hnd) as Hlen.
  assert (Hpf : filter (λ r, targets vd sd i j r = true) rs
                ≡ₚ filter (λ r, targets vd sd i j r = true) rs')
    by (by rewrite Hp).
  destruct (filter (λ r, targets vd sd i j r = true) rs) as [|r [|? ?]];
    [|cbn in Hlen|cbn in Hlen; lia].
  - by apply Permutation_nil_l in Hpf as <-.
  - symmetry in Hpf. by apply Permutation_singleton_r in Hpf as ->.
Qed.

Lemma readFile_decodes (fromFile : list string) (outDict : gmap string Entry) :
  readFile fromFile = (outDict, Returned tt) →
  Forall (λ line, isComment line = true ∨ is_Some (recordOf line)) fromFile.
Proof. intros [_ H]%forLines_Returned; [done|apply wf_empty]. Qed.

(** X11: when no two records of a file address the same cell, the order
    of its lines does not matter: [readFile] returns the same dictionary
    on every permutation of the lines. *)
Theorem readFile_order_irrelevant (file1 file2 : list string)
    (outDict : gmap string Entry) :
  readFile file1 = (outDict, Returned tt) →
  file1 ≡ₚ file2 →
  NoDup (cellOf <$> records file1) →
  readFile file2 = (outDict, Returned tt).
Proof.
  intros Hread Hp Hnd.
  pose proof (readFile_decodes _ _ Hread) as Hall. rewrite Hp in Hall.
  assert (Hread2 : readFile file2 = (replay (records file2) ∅, Returned tt))
    by (apply forLines_total; [apply wf_empty|done]).
  rewrite Hread2. f_equal. symmetry.
  assert (Hrs : records file1 ≡ₚ records file2) by (unfold records; by rewrite Hp).
  apply readFile_Returned in Hread as [-> _].
  apply replay_ext; [apply records_amp_lt..| |].
  - intros d sd. by setoid_rewrite Hrs.
  - intros d sd i j. by apply lastCoeff_Permutation.
Qed.


(** ** Properties of [makeDetectorCrosstalk] and of the script body *)

Lemma transpose_transpose (m : Matrix) :
  shape2x2 m → transpose (transpose m) = m.
Proof. by intros (a & b & c & d & ->)%shape2x2_inv. Qed.

(** X13: on the entry of key [d] of the dictionary [readFile] returns,
    [makeDetectorCrosstalk] changes [coeffs] and nothing else (the
    matrices of [interChip] are handed over as accumulated, not
    transposed). If the file has a record of [d] with itself, the calls
    are [fromDict], [updateMetadata], [getCrosstalkDir] and [writeFits]
    on the path made of the directory, [/], [d] and [.fits]; if it has
    none, the function raises [KeyError] for the key [DETECTOR] after the
    first three calls and [writeFits] is not called. *)
Theorem makeDetectorCrosstalk_after_readFile (fromFile : list string)
    (outDict : gmap string Entry) (d outDir : string) (e : Entry) :
  readFile fromFile = (outDict, Returned tt) →
  outDict !! d = Some e →
  let handed := set_coeffs (transpose (coeffs e)) e in
  let calls := [FromDict handed; UpdateMetadata true; GetCrosstalkDir] in
  interChip handed = interChip e
  ∧ metadata handed = metadata e
  ∧ makeDetectorCrosstalk outDir e
    = if hasSelfRecord d (records fromFile) then
        (handed, calls ++ [WriteFits (outDir +:+ "/" +:+ d +:+ ".fits")],
         Returned tt)
      else (handed, calls, Raised (KeyError "DETECTOR")).
Proof.
  intros [_ Hinv]%readFile_Returned He handed calls.
  destruct (Hinv d e He) as [_ []].
  split; [done|]. split; [done|].
  unfold makeDetectorCrosstalk. fold handed. cbn. rewrite inv_DETECTOR0.
  by destruct (hasSelfRecord d (records fromFile)).
Qed.

(** X14: [makeDetectorCrosstalk] leaves the transposed matrix in the
    dictionary it is given; called a second time on that dictionary, for
    an entry of the dictionary [readFile] returns, it hands [fromDict] the
    matrix as accumulated, and the dictionary is again the entry. *)
Theorem makeDetectorCrosstalk_twice (fromFile : list string)
    (outDict : gmap string Entry) (d outDir : string) (e : Entry) :
  readFile fromFile = (outDict, Returned tt) →
  outDict !! d = Some e →
  ∃ e1 calls1 o1 calls2 o2,
    makeDetectorCrosstalk outDir e = (e1, calls1, o1)
    ∧ makeDetectorCrosstalk outDir e1 = (e, FromDict e :: calls2, o2)
    ∧ o2 = o1.
Proof.
  intros Hread He.
  pose proof (readFile_wf _ _ _ Hread d e He) as [Hc _].
  assert (Hback : set_coeffs (transpose (coeffs (set_coeffs (transpose (coeffs e)) e)))
                    (set_coeffs (transpose (coeffs e)) e) = e).
  { destruct e; unfold set_coeffs; cbn in *. by rewrite transpose_transpose. }
  set (e1 := set_coeffs (transpose (coeffs e)) e) in *.
  assert (Hd1 : DETECTOR e1 = DETECTOR e) by done.
  assert (Hd : DETECTOR e = DETECTOR (set_coeffs (transpose (coeffs e1)) e1))
    by (by rewrite Hback).
  exists e1. unfold makeDetectorCrosstalk. fold e1. rewrite Hback, Hd1.
  destruct (DETECTOR e); by do 4 eexists.
Qed.

Lemma firstSeen_elem (seen ks : list string) (k : string) :
  k ∈ firstSeen seen ks ↔ k ∈ ks ∧ k ∉ seen.
Proof.
  revert seen. induction ks as [|k' ks IH]; intros seen; cbn.
  - rewrite elem_of_nil. intuition.
  - case_decide as Hk'.
    + rewrite IH, elem_of_cons. split; [intuition|].
      intros [[->|?] ?]; done.
    + rewrite !elem_of_cons, IH, elem_of_cons. split.
      * intros [->|[? ?]]; [by auto|]. split; [by auto|]. intuition.
      * intros [[->|?] ?]; [by left|].
        destruct (decide (k = k')) as [->|]; [by left|right]. intuition.
Qed.

Lemma firstSeen_NoDup (seen ks : list string) : NoDup (firstSeen seen ks).
Proof.
  revert seen. induction ks as [|k ks IH]; intros seen; cbn; [constructor|].
  case_decide; [apply IH|]. constructor; [|apply IH].
  rewrite firstSeen_elem, elem_of_cons. intuition.
Qed.

Lemma insertionOrder_elem (rs : list CrosstalkRecord) (d : string) :
  d ∈ insertionOrder rs ↔ ∃ r, r ∈ rs ∧ victimDet r = d.
Proof.
  unfold insertionOrder. rewrite firstSeen_elem, list_elem_of_fmap, elem_of_nil.
  split.
  - intros [(r & -> & Hr) _]. by exists r.
  - intros (r & Hr & <-). split; [by exists r|tauto].
Qed.

Lemma written_app (outs1 outs2 : list Output) :
  written (outs1 ++ outs2) = written outs1 ++ written outs2.
Proof. apply omap_app. Qed.

Lemma silent_app (outs1 outs2 : list Output) :
  silent (outs1 ++ outs2) = silent outs1 ++ silent outs2.
Proof. apply filter_app. Qed.

Lemma prints_written_silent (outs : list Output) :
  Forall (λ o, isPrint o = true) outs → written outs = [] ∧ silent outs = [].
Proof.
  induction 1 as [|o outs Ho _ [IHw IHs]]; [done|]. split.
  - unfold written in *. cbn. rewrite IHw. by destruct o as [| | | | | | |[]].
  - unfold silent in *. rewrite filter_cons_False by (by rewrite Ho). done.
Qed.

Lemma printInterChip_prints (ic : gmap string Matrix) (order : list string) :
  Forall (λ o, isPrint o = true) (printInterChip ic order).
Proof.
  apply Forall_forall. intros o (source & _ & Ho)%list_elem_of_omap.
  destruct (ic !! source); by simplify_eq/=.
Qed.

Lemma silent_collaborators (calls : list Call) :
  silent (Collaborator <$> calls) = Collaborator <$> calls.
Proof.
  induction calls as [|c calls IH]; [done|].
  unfold silent in *. rewrite fmap_cons, filter_cons_True by done. by rewrite IH.
Qed.

(** One round of the loop over the detectors. *)
Lemma forDetectors_cons (verbose : bool) (outDir : string)
    (rs : list CrosstalkRecord) (d : string) (rest : list string)
    (outDict : gmap string Entry) (e : Entry) :
  outDict !! d = Some e →
  ∃ prints,
    Forall (λ o, isPrint o = true) prints
    ∧ (verbose = false → prints = [])
    ∧ forDetectors verbose outDir rs (d :: rest) outDict
      = let '(e', calls, o) := makeDetectorCrosstalk outDir e in
        let outs := prints ++ (Collaborator <$> calls) in
        match o with
        | Raised ex => (<[d := e']> outDict, outs, Uncaught ex)
        | Returned _ =>
            let '(outDict'', outs', ending) :=
              forDetectors verbose outDir rs rest (<[d := e']> outDict) in
            (outDict'', outs ++ outs', ending)
        end.
Proof.
  intros He. cbn [forDetectors]. rewrite He.
  eexists. split; [|split; [|reflexivity]].
  - destruct verbose; [|constructor].
    do 2 (constructor; [done|]). apply printInterChip_prints.
  - by intros ->.
Qed.

(** The loop over detectors whose entries all have [DETECTOR]: one file
    each, in order. *)
Lemma forDetectors_complete (verbose : bool) (outDir : string)
    (rs : list CrosstalkRecord) (order : list string)
    (outDict : gmap string Entry) :
  NoDup order →
  (∀ d, d ∈ order → ∃ e, outDict !! d = Some e ∧ DETECTOR e = Some d) →
  ∃ outDict' outs,
    forDetectors verbose outDir rs order outDict = (outDict', outs, Completed)
    ∧ written outs = (λ d, outDir +:+ "/" +:+ d +:+ ".fits") <$> order
    ∧ (∀ d, d ∉ order → outDict' !! d = outDict !! d).
Proof.
  revert outDict. induction order as [|d rest IH]; intros outDict Hnd Hall.
  - by exists outDict, [].
  - apply NoDup_cons in Hnd as [Hd Hnd].
    destruct (Hall d) as (e & He & Hdet); [by left|].
    destruct (forDetectors_cons verbose outDir rs d rest outDict e He)
      as (prints & Hprints & _ & ->).
    unfold makeDetectorCrosstalk. cbn. rewrite Hdet.
    set (e' := set_coeffs (transpose (coeffs e)) e).
    destruct (IH (<[d := e']> outDict) Hnd) as (outDict' & outs & -> & Hw & Hframe).
    { intros d' Hd'. destruct (Hall d') as (e0 & He0 & Hdet0); [by right|].
      exists e0. rewrite lookup_insert_ne by (intros ->; done). done. }
    eexists _, _. split; [reflexivity|]. split.
    + rewrite !written_app, Hw.
      destruct (prints_written_silent prints Hprints) as [-> _]. done.
    + intros d' Hd'. apply not_elem_of_cons in Hd' as [Hne Hd'].
      rewrite Hframe by done. by rewrite lookup_insert_ne.
Qed.

(** The loop stops at the first detector whose entry has no [DETECTOR]. *)
Lemma forDetectors_gap (verbose : bool) (outDir : string)
    (rs : list CrosstalkRecord) (ok rest : list string) (d : string)
    (outDict : gmap string Entry) (e : Entry) :
  NoDup (ok ++ d :: rest) →
  (∀ d', d' ∈ ok → ∃ e', outDict !! d' = Some e' ∧ DETECTOR e' = Some d') →
  outDict !! d = Some e → DETECTOR e = None →
  ∃ outDict' outs,
    forDetectors verbose outDir rs (ok ++ d :: rest) outDict
      = (outDict', outs, Uncaught (KeyError "DETECTOR"))
    ∧ written outs = (λ d, outDir +:+ "/" +:+ d +:+ ".fits") <$> ok.
Proof.
  revert outDict. induction ok as [|d0 ok IH]; intros outDict Hnd Hall He Hdet.
  - rewrite app_nil_l.
    destruct (forDetectors_cons verbose outDir rs d rest outDict e He)
      as (prints & Hprints & _ & ->).
    unfold makeDetectorCrosstalk. cbn. rewrite Hdet.
    eexists _, _. split; [reflexivity|].
    rewrite written_app. by destruct (prints_written_silent prints Hprints) as [-> _].
  - rewrite <- app_comm_cons in *. apply NoDup_cons in Hnd as [Hd0 Hnd].
    destruct (Hall d0) as (e0 & He0 & Hdet0); [by left|].
    destruct (forDetectors_cons verbose outDir rs d0 (ok ++ d :: rest) outDict e0 He0)
      as (prints & Hprints & _ & ->).
    unfold makeDetectorCrosstalk. cbn. rewrite Hdet0.
    set (e0' := set_coeffs (transpose (coeffs e0)) e0).
    destruct (IH (<[d0 := e0']> outDict) Hnd) as (outDict' & outs & -> & Hw).
    { intros d' Hd'. destruct (Hall d') as (e' & He' & Hdet'); [by right|].
      exists e'. rewrite lookup_insert_ne; [done|].
      intros ->. apply Hd0. rewrite elem_of_app. by left. }
    { rewrite lookup_insert_ne; [done|].
      intros ->. apply Hd0. rewrite elem_of_app, elem_of_cons. auto. }
    { done. }
    eexists _, _. split; [reflexivity|].
    rewrite !written_app, Hw.
    by destruct (prints_written_silent prints Hprints) as [-> _].
Qed.

(** The flag [verbose] adds messages and nothing else. *)
Lemma forDetectors_verbose (outDir : string) (rs : list CrosstalkRecord)
    (order : list string) (outDict : gmap string Entry) :
  ∃ outDict' outsV outs ending,
    forDetectors true outDir rs order outDict = (outDict', outsV, ending)
    ∧ forDetectors false outDir rs order outDict = (outDict', outs, ending)
    ∧ silent outsV = outs ∧ silent outs = outs.
Proof.
  revert outDict. induction order as [|d rest IH]; intros outDict.
  - by exists outDict, [], [], Completed.
  - destruct (outDict !! d) as [e|] eqn:He; [|cbn; rewrite He; by do 4 eexists].
    destruct (forDetectors_cons true outDir rs d rest outDict e He)
      as (printsV & HprintsV & _ & ->).
    destruct (forDetectors_cons false outDir rs d rest outDict e He)
      as (prints & _ & Hnil & ->).
    rewrite (Hnil eq_refl). clear Hnil prints. cbn [app].
    destruct (prints_written_silent printsV HprintsV) as [_ HsV].
    destruct (makeDetectorCrosstalk outDir e) as [[e' calls] [[]|ex]].
    + destruct (IH (<[d := e']> outDict))
        as (outDict' & outsV & outs & ending & -> & -> & Hs1 & Hs2).
      eexists _, _, _, _. split; [reflexivity|]. split; [reflexivity|].
      rewrite !silent_app, HsV, !silent_collaborators, Hs1, Hs2. done.
    + eexists _, _, _, _. split; [reflexivity|]. split; [reflexivity|].
      rewrite !silent_app, HsV, !silent_collaborators. done.
Qed.

Lemma forDetectors_outs (verbose : bool) (outDir : string)
    (rs : list CrosstalkRecord) (order : list string)
    (outDict outDict' : gmap string Entry) (outs : list Output) (ending : Ending) :
  forDetectors verbose outDir rs order outDict = (outDict', outs, ending) →
  Forall (λ o, isPrint o = true ∨ ∃ c, o = Collaborator c) outs.
Proof.
  revert outDict outDict' outs ending.
  induction order as [|d rest IH]; intros outDict outDict' outs ending.
  - intros [= <- <- <-]. constructor.
  - destruct (outDict !! d) as [e|] eqn:He;
      [|cbn; rewrite He; intros [= <- <- <-]; constructor].
    destruct (forDetectors_cons verbose outDir rs d rest outDict e He)
      as (prints & Hprints & _ & ->).
    assert (Hhead : ∀ calls, Forall (λ o, isPrint o = true ∨ ∃ c, o = Collaborator c)
                               (prints ++ (Collaborator <$> calls))).
    { intros calls. apply Forall_app. split.
      - eapply Forall_impl; [exact Hprints|]. by left.
      - apply Forall_fmap, Forall_true. intros c. right. by exists c. }
    destruct (makeDetectorCrosstalk outDir e) as [[e' calls] [[]|ex]].
    + destruct (forDetectors verbose outDir rs rest (<[d := e']> outDict))
        as [[o'' outs'] en] eqn:Hrest.
      intros [= <- <- <-]. apply Forall_app. split; [apply Hhead|].
      by eapply IH.
    + intros [= <- <- <-]. apply Hhead.
Qed.

Lemma forLines_bad_line (lines : list string) (outDict : gmap string Entry) :
  wf outDict →
  Exists (λ line, isComment line = false ∧ recordOf line = None) lines →
  ∃ outDict' e, forLines lines outDict = (outDict', Raised e).
Proof.
  intros Hwf Hex. revert outDict Hwf.
  induction Hex as [line lines [Hc Hr]|line lines Hex IH]; intros outDict Hwf;
    rewrite forLines_cons;
    destruct (loopBody_cases line outDict Hwf)
      as [(Hc' & _ & ->)|[(r & _ & Hr' & ->)|(e & _ & _ & _ & ->)]];
    try congruence; eauto.
  by apply IH, wf_applyRecord.
Qed.

Lemma written_silent (outs : list Output) : written (silent outs) = written outs.
Proof.
  induction outs as [|o outs IH]; [done|].
  destruct (isPrint o) eqn:Ho; unfold silent.
  - rewrite filter_cons_False by (by rewrite Ho). fold (silent outs).
    rewrite IH. by destruct o as [| | | | | | |c].
  - rewrite filter_cons_True by done. fold (silent outs).
    unfold written in *. cbn. by rewrite IH.
Qed.

Lemma readFile_entries_DETECTOR (fromFile : list string) (d : string) :
  hasSelfRecord d (records fromFile) = true →
  (∃ r, r ∈ records fromFile ∧ victimDet r = d) →
  ∃ e, replay (records fromFile) ∅ !! d = Some e ∧ DETECTOR e = Some d.
Proof.
  intros Hself (r & Hr & Hv).
  pose proof (replay_inv (records fromFile) d (records_amp_lt fromFile)) as H.
  destruct (replay (records fromFile) ∅ !! d) as [e|]; [|by destruct (H r Hr)].
  destruct H as [_ []]. exists e. by rewrite inv_DETECTOR0, Hself.
Qed.

Lemma readFile_entries_no_DETECTOR (fromFile : list string) (d : string) :
  hasSelfRecord d (records fromFile) = false →
  (∃ r, r ∈ records fromFile ∧ victimDet r = d) →
  ∃ e, replay (records fromFile) ∅ !! d = Some e ∧ DETECTOR e = None.
Proof.
  intros Hself (r & Hr & Hv).
  pose proof (replay_inv (records fromFile) d (records_amp_lt fromFile)) as H.
  destruct (replay (records fromFile) ∅ !! d) as [e|]; [|by destruct (H r Hr)].
  destruct H as [_ []]. exists e. by rewrite inv_DETECTOR0, Hself.
Qed.

(** X15: one line that is neither a comment nor decodes, anywhere in the
    file, and the script does nothing to the outside: no message, no
    directory made, no collaborator called; it ends with the exception of
    [readFile], whatever the flags and the state of the directory. *)
Theorem main_bad_line_no_output (verbose force dirExists : bool)
    (fromFile : list string) (crosstalkDir : string) :
  Exists (λ line, isComment line = false ∧ recordOf line = None) fromFile →
  ∃ e, main verbose force fromFile crosstalkDir dirExists = ([], Uncaught e).
Proof.
  intros (outDict & e & Hread)%(forLines_bad_line _ ∅ wf_empty).
  exists e. unfold main, readFile. by rewrite Hread.
Qed.

(** X16: on a file all of whose lines are comments or decode, when the
    directory exists and [force] is not set, the script asks for the
    directory, prints that it exists and ends by [sys.exit(1)]: nothing is
    made or written, whatever [verbose] is. *)
Theorem main_refuses_existing_directory (verbose : bool)
    (fromFile : list string) (crosstalkDir : string) :
  Forall (λ line, isComment line = true ∨ is_Some (recordOf line)) fromFile →
  main verbose false fromFile crosstalkDir true
  = ([Collaborator GetCrosstalkDir; PrintExists crosstalkDir], SysExit 1).
Proof.
  intros Hall. unfold main, readFile.
  by rewrite (forLines_total _ ∅ wf_empty Hall).
Qed.

(** X17: on a file all of whose lines are comments or decode and in which
    every victim detector has a record with itself, when the directory
    does not exist or [force] is set, the script ends after its last
    statement, and [writeFits] is called once per victim detector, in the
    order in which the file names them first, on the path made of the
    directory, [/], the detector name and [.fits]. The directory is made
    exactly when it did not exist. *)
Theorem main_writes_one_file_per_victim (verbose force dirExists : bool)
    (fromFile : list string) (crosstalkDir : string) :
  Forall (λ line, isComment line = true ∨ is_Some (recordOf line)) fromFile →
  (∀ r, r ∈ records fromFile →
        hasSelfRecord (victimDet r) (records fromFile) = true) →
  dirExists && negb force = false →
  ∃ outs,
    main verbose force fromFile crosstalkDir dirExists = (outs, Completed)
    ∧ written outs
      = (λ d, crosstalkDir +:+ "/" +:+ d +:+ ".fits")
          <$> insertionOrder (records fromFile)
    ∧ NoDup (insertionOrder (records fromFile))
    ∧ (Makedirs crosstalkDir ∈ outs ↔ dirExists = false).
Proof.
  intros Hall Hself Hdir. unfold main, readFile.
  rewrite (forLines_total _ ∅ wf_empty Hall), Hdir.
  destruct (forDetectors_complete verbose crosstalkDir (records fromFile)
              (insertionOrder (records fromFile)) (replay (records fromFile) ∅))
    as (outDict' & outs & Hfor & Hw & _).
  { apply firstSeen_NoDup. }
  { intros d (r & Hr & <-)%insertionOrder_elem.
    apply readFile_entries_DETECTOR; [by apply Hself|by exists r]. }
  rewrite Hfor.
  eexists. split; [reflexivity|]. split; [|split; [apply firstSeen_NoDup|]].
  - rewrite !written_app, Hw. by destruct dirExists.
  - assert (Hno : Makedirs crosstalkDir ∉ outs).
    { intros Hin. eapply Forall_forall in Hin; [|by eapply forDetectors_outs].
      by destruct Hin as [|[c ?]]. }
    destruct dirExists; rewrite !elem_of_app, !elem_of_cons, !elem_of_nil;
      split; try done; intuition; try discriminate.
Qed.

(** X18: on a file all of whose lines are comments or decode, when the
    directory check passes, let [d] be the first victim detector, in the
    order in which the file names them, without a record with itself.
    Then the script ends with the uncaught [KeyError] for [DETECTOR]
    raised by [makeDetectorCrosstalk] on [d]; [writeFits] has been called
    for the victim detectors before [d] and for no other. *)
Theorem main_stops_at_first_gap (verbose force dirExists : bool)
    (fromFile : list string) (crosstalkDir : string)
    (before after : list string) (d : string) :
  Forall (λ line, isComment line = true ∨ is_Some (recordOf line)) fromFile →
  insertionOrder (records fromFile) = before ++ d :: after →
  (∀ d', d' ∈ before → hasSelfRecord d' (records fromFile) = true) →
  hasSelfRecord d (records fromFile) = false →
  dirExists && negb force = false →
  ∃ outs,
    main verbose force fromFile crosstalkDir dirExists
      = (outs, Uncaught (KeyError "DETECTOR"))
    ∧ written outs
      = (λ d, crosstalkDir +:+ "/" +:+ d +:+ ".fits") <$> before.
Proof.
  intros Hall Horder Hbefore Hd Hdir. unfold main, readFile.
  rewrite (forLines_total _ ∅ wf_empty Hall), Hdir, Horder.
  assert (Hin : ∀ d', d' ∈ before ++ d :: after →
                      ∃ r, r ∈ records fromFile ∧ victimDet r = d')
    by (intros d'; rewrite <- Horder; apply insertionOrder_elem).
  destruct (readFile_entries_no_DETECTOR fromFile d Hd) as (e & He & Hdet).
  { apply Hin. rewrite elem_of_app, elem_of_cons. auto. }
  destruct (forDetectors_gap verbose crosstalkDir (records fromFile)
              before after d (replay (records fromFile) ∅) e)
    as (outDict' & outs & -> & Hw); [| |done|done|].
  { rewrite <- Horder. apply firstSeen_NoDup. }
  { intros d' Hd'. apply readFile_entries_DETECTOR; [by apply Hbefore|].
    apply Hin. rewrite elem_of_app. by left. }
  eexists. split; [reflexivity|].
  rewrite !written_app, Hw. by destruct dirExists.
Qed.

(** X19: the flag [verbose] changes the messages printed and nothing
    else: with and without it the script ends the same way and makes the
    same calls, in the same order, on the directory and the
    collaborators. *)
Theorem main_verbose_only_prints (force dirExists : bool)
    (fromFile : list string) (crosstalkDir : string) :
  ∃ outsV outs ending,
    main true force fromFile crosstalkDir dirExists = (outsV, ending)
    ∧ main false force fromFile crosstalkDir dirExists = (outs, ending)
    ∧ silent outsV = silent outs
    ∧ written outsV = written outs.
Proof.
  assert (∃ outsV outs ending,
            main true force fromFile crosstalkDir dirExists = (outsV, ending)
            ∧ main false force fromFile crosstalkDir dirExists = (outs, ending)
            ∧ silent outsV = silent outs) as (outsV & outs & ending & HV & HS & Hs).
  { unfold main. destruct (readFile fromFile) as [outDict [[]|e]];
      [|by exists [], [], (Uncaught e)].
    destruct (dirExists && negb force); [by do 3 eexists|].
    destruct (forDetectors_verbose crosstalkDir (records fromFile)
                (insertionOrder (records fromFile)) outDict)
      as (o' & outsV & outs & ending & -> & -> & Hs1 & Hs2).
    do 3 eexists. split; [reflexivity|]. split; [reflexivity|].
    by rewrite !silent_app, Hs1, Hs2. }
  exists outsV, outs, ending. split; [done|]. split; [done|]. split; [done|].
  by rewrite <- (written_silent outsV), <- (written_silent outs), Hs.
Qed.

End Crosstalk.

(** ** Properties of the string computations of [_instrument.py] *)

Module InstrumentFacts.
Import Instrument.

Lemma contains_replaceChar (old new : ascii) (s : string) :
  old ≠ new → PyStr.contains old (replaceChar old new s) = false.
Proof.
  intros Hne. induction s as [|c s IH]; [done|]. cbn.
  destruct (decide (c = old)) as [->|Hc].
  - by rewrite decide_False.
  - by rewrite decide_False by done.
Qed.

Lemma replaceChar_absent (old new : ascii) (s : string) :
  PyStr.contains old s = false → replaceChar old new s = s.
Proof.
  induction s as [|c s IH]; [done|]. cbn.
  destruct (decide (old = c)) as [->|Hc]; [done|].
  intros Hs. rewrite decide_False by done. by rewrite IH.
Qed.

(** X20: the short name of a camera object has no space, has the length
    of the name, and is the name itself when the name has no space; so
    [shortNameFunc] applied twice is [shortNameFunc] applied once. *)
Theorem shortNameFunc_no_space (name : string) :
  PyStr.contains " " (shortNameFunc name) = false
  ∧ String.length (shortNameFunc name) = String.length name
  ∧ (PyStr.contains " " name = false → shortNameFunc name = name)
  ∧ shortNameFunc (shortNameFunc name) = shortNameFunc name.
Proof.
  assert (H1 : PyStr.contains " " (shortNameFunc name) = false)
    by (by apply contains_replaceChar).
  split; [done|]. split; [|split].
  - clear H1. unfold shortNameFunc.
    induction name as [|c name IH]; [done|]. cbn. by rewrite IH.
  - apply replaceChar_absent.
  - by apply replaceChar_absent.
Qed.

Lemma contains_app_string (c : ascii) (s t : string) :
  PyStr.contains c (s +:+ t) = PyStr.contains c s || PyStr.contains c t.
Proof.
  induction s as [|d s IH]; [done|].
  change (String d s +:+ t) with (String d (s +:+ t)). cbn. by case_decide.
Qed.

Lemma splitOn_nonempty (sep : ascii) (s : string) : splitOn sep s ≠ [].
Proof.
  destruct s as [|c s]; [done|]. cbn. case_decide; [done|].
  by destruct (splitOn sep s).
Qed.

Lemma splitOn_no_sep (sep : ascii) (s : string) :
  Forall (λ w, PyStr.contains sep w = false) (splitOn sep s).
Proof.
  induction s as [|c s IH]; [by constructor|]. cbn.
  destruct (decide (c = sep)) as [->|Hc]; [by constructor|].
  destruct (splitOn sep s) as [|w ws]; [by constructor; [cbn; rewrite decide_False|]|].
  apply Forall_cons in IH as [Hw Hws]. constructor; [|done].
  cbn. by rewrite decide_False.
Qed.

(** Splitting and joining again gives the string back. *)
Lemma joinOn_splitOn (sep : ascii) (s : string) : joinOn sep (splitOn sep s) = s.
Proof.
  induction s as [|c s IH]; [done|]. cbn [splitOn].
  pose proof (splitOn_nonempty sep s) as Hne.
  destruct (decide (c = sep)) as [->|Hc].
  - destruct (splitOn sep s) as [|w ws]; [done|].
    change (joinOn sep ("" :: w :: ws)) with ("" +:+ String sep (joinOn sep (w :: ws))).
    by rewrite IH.
  - destruct (splitOn sep s) as [|w [|w' ws]]; [done| |].
    + cbn in *. by rewrite IH.
    + change (joinOn sep (String c w :: w' :: ws))
        with (String c (w +:+ String sep (joinOn sep (w' :: ws)))).
      by rewrite <- IH.
Qed.

Lemma app_assoc_string (a b c : string) : (a +:+ b) +:+ c = a +:+ (b +:+ c).
Proof.
  induction a as [|x a IH]; [done|].
  change (String x ((a +:+ b) +:+ c) = String x (a +:+ (b +:+ c))).
  by rewrite IH.
Qed.

Lemma joinOn_snoc (sep : ascii) (init : list string) (p : string) :
  ∃ before,
    joinOn sep (init ++ [p]) = before +:+ p
    ∧ (before = "" ∨ ∃ b, before = b +:+ String sep "").
Proof.
  induction init as [|w init (before & Hj & Hb)].
  - exists "". split; [done|by left].
  - exists (w +:+ String sep before). split.
    + rewrite <- app_comm_cons.
      destruct (init ++ [p]) as [|x l] eqn:Hl; [by destruct init|].
      change (joinOn sep (w :: x :: l)) with (w +:+ String sep (joinOn sep (x :: l))).
      rewrite Hj. by rewrite app_assoc_string.
    + right. destruct Hb as [->|[b ->]].
      * by exists w.
      * exists (w +:+ String sep b). by rewrite app_assoc_string.
Qed.

(** X21: the record [register] builds for a detector splits its name
    after the first character: [raft] is the first character,
    [name_in_raft] the rest, and the two put together are [full_name],
    the name itself. A detector with an empty name makes [register] raise
    [IndexError]. *)
Theorem detectorRecord_splits_name (name : string) (detId : Z) (type : string) :
  (name = "" → detectorRecord name detId type = Raised IndexError)
  ∧ (name ≠ "" →
     ∃ rec, detectorRecord name detId type = Returned rec
            ∧ full_name rec = name
            ∧ raft rec +:+ name_in_raft rec = name
            ∧ String.length (raft rec) = 1
            ∧ instrument rec = "DECam" ∧ id rec = detId).
Proof.
  split; [by intros ->|]. intros Hname. destruct name as [|c name]; [done|].
  unfold detectorRecord, index. cbn [first tail mbind outcome_bind].
  pose proof (splitOn_nonempty "." type) as Hne.
  destruct (splitOn "." type !! pred (length (splitOn "." type))) as [p|] eqn:Hp.
  - eexists. split; [reflexivity|]. by cbn.
  - apply lookup_ge_None in Hp. destruct (splitOn "." type); [done|cbn in Hp; lia].
Qed.

(** X22: for a detector with a name, the [purpose] of the record is the
    part of the type string after its last dot (the whole string when it
    has no dot): it has no dot, and the type string is [purpose] itself or
    ends with a dot followed by [purpose]. *)
Theorem detectorRecord_purpose (name : string) (detId : Z) (type : string) :
  name ≠ "" →
  ∃ rec before,
    detectorRecord name detId type = Returned rec
    ∧ PyStr.contains "." (purpose rec) = false
    ∧ type = before +:+ purpose rec
    ∧ (before = "" ∨ ∃ b, before = b +:+ ".")
    ∧ (PyStr.contains "." type = false → purpose rec = type).
Proof.
  intros Hname. destruct name as [|c name]; [done|].
  unfold detectorRecord, index. cbn [first tail mbind outcome_bind].
  rewrite <- last_lookup.
  pose proof (splitOn_nonempty "." type) as Hne.
  destruct (last (splitOn "." type)) as [p|] eqn:Hp;
    [|by apply last_None in Hp].
  apply last_Some in Hp as [init Hinit].
  destruct (joinOn_snoc "." init p) as (before & Hj & Hb).
  rewrite <- Hinit, joinOn_splitOn in Hj.
  pose proof (splitOn_no_sep "." type) as Hno.
  rewrite Hinit, Forall_app, Forall_singleton in Hno. destruct Hno as [_ Hno].
  eexists _, before. split; [reflexivity|]. cbn.
  split; [done|]. split; [done|]. split; [done|].
  intros Hdot. destruct Hb as [->|[b ->]]; [done|].
  rewrite Hj, !contains_app_string in Hdot. cbn in Hdot.
  by rewrite orb_true_r in Hdot.
Qed.

End InstrumentFacts.

(** ** The script on concrete files

    [readFile] run with binary64 floats and [decimalFloat] for [float()]. *)

Import DecimalFloat.

(** C1 on the inter-chip line of the example, read first. *)
Lemma readFile_self_or_interChip_witness :
  let r := mkRecord "S29" 0 "S30" 1 Sample.c0003 in
  readFile 0%float decimalFloat [] = (∅, Returned tt)
  ∧ recordOf decimalFloat Sample.inter = Some r
  ∧ ∃ e',
      loopBody 0%float decimalFloat Sample.inter ∅
        = (<["S29" := e']> ∅, Returned tt)
      ∧ interChip e'
        = {[ "S30" := [[0%float; Sample.c0003]; [0%float; 0%float]] ]}
      ∧ coeffs e' = zeros 0%float 2 2.
Proof.
  intros r.
  assert (H1 : readFile 0%float decimalFloat [] = (∅, Returned tt)) by reflexivity.
  assert (H2 : recordOf decimalFloat Sample.inter = Some r)
    by (vm_compute; reflexivity).
  split; [exact H1|]. split; [exact H2|].
  destruct (readFile_self_or_interChip 0%float decimalFloat
              [] Sample.inter ∅ r H1 H2) as (e' & Hbody & _ & Hcase).
  exists e'. split; [exact Hbody|].
  destruct (decide (victimDet r = sourceDet r)) as [Heq|_]; [discriminate Heq|].
  destruct Hcase as (m' & Hset & Hic & _ & Hco).
  vm_compute in Hset. injection Hset as <-.
  split; [exact Hic|exact Hco].
Defined.

(** C2 with binary64 floats. *)
Lemma readFile_example_witness :
  ∃ e,
    readFile 0%float decimalFloat Sample.example = ({[ "S29" := e ]}, Returned tt)
    ∧ coeffs e = [[0%float; Sample.c0012]; [Sample.c0009; 0%float]]
    ∧ interChip e = {[ "S30" := [[0%float; Sample.c0003]; [0%float; 0%float]] ]}
    ∧ hasCrosstalk e = true
    ∧ metadata e !! "DETECTOR" = Some "S29".
Proof.
  apply (readFile_example 0%float decimalFloat
           Sample.c0012 Sample.c0009 Sample.c0003);
    vm_compute; reflexivity.
Defined.

(** The dictionary [readFile] returns on the example. *)
Lemma run_example :
  readFile 0%float decimalFloat Sample.example
  = ({[ "S29" :=
          mkEntry {[ "OBSTYPE" := "CROSSTALK"; "DETECTOR" := "S29";
                     "DETECTOR_SERIAL" := "UNKNOWN" ]}
                  {[ "S30" := [[0%float; Sample.c0003]; [0%float; 0%float]] ]}
                  (2, 2) true 2
                  [[0%float; Sample.c0012]; [Sample.c0009; 0%float]]
                  (Some "S29") (Some "UNKNOWN") ]},
     Returned tt).
Proof. vm_compute. reflexivity. Qed.

(** C3 on the entry of S29 in the example, whose [coeffs] is not
    symmetric: [fromDict] receives [[0, 0.0009], [0.0012, 0]]. *)
Lemma makeDetectorCrosstalk_transposes_witness :
  ∃ outDict e handed calls o,
    readFile 0%float decimalFloat Sample.example = (outDict, Returned tt)
    ∧ outDict !! "S29" = Some e
    ∧ coeffs e = [[0%float; Sample.c0012]; [Sample.c0009; 0%float]]
    ∧ makeDetectorCrosstalk "/crosstalk" e = (handed, FromDict handed :: calls, o)
    ∧ coeffs handed = [[0%float; Sample.c0009]; [Sample.c0012; 0%float]]
    ∧ coeffs handed ≠ coeffs e.
Proof.
  pose proof run_example as Hrun.
  eexists _, _.
  destruct (makeDetectorCrosstalk_transposes 0%float decimalFloat
              Sample.example _ "S29" "/crosstalk" _ Hrun (lookup_singleton_eq _ _))
    as (handed & calls & o & Hmk & Ht & _ & _ & Hne).
  exists handed, calls, o.
  split; [exact Hrun|]. split; [apply lookup_singleton_eq|].
  split; [reflexivity|]. split; [exact Hmk|]. split; [exact Ht|].
  apply Hne. intros H. float_discr H Sample.c0009.
Defined.

(** The dictionary [readFile] returns on a file of one inter-chip line. *)
Lemma run_inter :
  readFile 0%float decimalFloat [Sample.inter]
  = ({[ "S29" :=
          mkEntry {[ "OBSTYPE" := "CROSSTALK" ]}
                  {[ "S30" := [[0%float; Sample.c0003]; [0%float; 0%float]] ]}
                  (2, 2) true 2 (zeros 0%float 2 2) None None ]},
     Returned tt).
Proof. vm_compute. reflexivity. Qed.

Lemma no_self_record_inter :
  hasSelfRecord "S29" (records decimalFloat [Sample.inter]) = false.
Proof. vm_compute. reflexivity. Qed.

(** C4 on a file with one inter-chip record: the entry of S29 has
    [OBSTYPE] and no [DETECTOR]. *)
Lemma readFile_metadata_witness :
  ∃ outDict e,
    readFile 0%float decimalFloat [Sample.inter] = (outDict, Returned tt)
    ∧ outDict !! "S29" = Some e
    ∧ hasSelfRecord "S29" (records decimalFloat [Sample.inter]) = false
    ∧ hasCrosstalk e = true
    ∧ metadata e = {[ "OBSTYPE" := "CROSSTALK" ]}
    ∧ DETECTOR e = None
    ∧ DETECTOR_SERIAL e = None.
Proof.
  pose proof run_inter as Hrun. pose proof no_self_record_inter as Hself.
  eexists _, _.
  pose proof (readFile_metadata 0%float decimalFloat
                [Sample.inter] _ "S29" _ Hrun (lookup_singleton_eq _ _))
    as (Hhas & _ & Hcase).
  rewrite Hself in Hcase. destruct Hcase as (Hmeta & _ & _ & Hd & Hds).
  split; [exact Hrun|]. split; [apply lookup_singleton_eq|].
  split; [exact Hself|]. split; [exact Hhas|]. split; [exact Hmeta|].
  split; [exact Hd|exact Hds].
Defined.

(** C4 as stated fails: a detector that is victim of inter-chip records
    only has [OBSTYPE] in its metadata. *)
Lemma metadata_OBSTYPE_without_self_record :
  ¬ (∀ (fromFile : list string) (outDict : gmap string Entry) (d : string) (e : Entry),
       readFile 0%float decimalFloat fromFile = (outDict, Returned tt) →
       outDict !! d = Some e →
       hasSelfRecord d (records decimalFloat fromFile) = false →
       metadata e !! "OBSTYPE" = None).
Proof.
  intros H.
  specialize (H [Sample.inter] _ "S29" _ run_inter (lookup_singleton_eq _ _)
                no_self_record_inter).
  vm_compute in H. discriminate H.
Qed.

Lemma run_self01 :
  readFile 0%float decimalFloat [Sample.self01]
  = ({[ "S29" :=
          mkEntry {[ "OBSTYPE" := "CROSSTALK"; "DETECTOR" := "S29";
                     "DETECTOR_SERIAL" := "UNKNOWN" ]}
                  ∅ (2, 2) true 2
                  [[0%float; Sample.c0012]; [0%float; 0%float]]
                  (Some "S29") (Some "UNKNOWN") ]},
     Returned tt).
Proof. vm_compute. reflexivity. Qed.








Lemma recordOf_self01 :
  recordOf decimalFloat Sample.self01 = Some (mkRecord "S29" 0 "S29" 1 Sample.c0012).
Proof. vm_compute. reflexivity. Qed.

Lemma recordOf_again01 :
  recordOf decimalFloat Sample.again01 = Some (mkRecord "S29" 0 "S29" 1 Sample.c0009).
Proof. vm_compute. reflexivity. Qed.

(** C8 on two lines for the cell [0][1] of S29 with itself, a comment
    between them: the cell holds 0.0009, the coefficient of the later. *)
Lemma readFile_last_write_wins_witness :
  ∃ outDict e,
    readFile 0%float decimalFloat [Sample.self01; Sample.comment; Sample.again01]
      = (outDict, Returned tt)
    ∧ outDict !! "S29" = Some e
    ∧ cell (coeffs e) 0 1 = Some Sample.c0009
    ∧ cell (coeffs e) 0 1 ≠ Some Sample.c0012.
Proof.
  destruct (readFile_last_write_wins 0%float decimalFloat
              [] [Sample.comment] [] Sample.self01 Sample.again01
              (mkRecord "S29" 0 "S29" 1 Sample.c0012)
              (mkRecord "S29" 0 "S29" 1 Sample.c0009))
    as (outDict & e & Hrun & He & m & Hm & Hcell & Hne).
  - apply Forall_cons. split; [right; eexists; exact recordOf_self01|].
    apply Forall_cons. split; [left; reflexivity|].
    apply Forall_cons. split; [right; eexists; exact recordOf_again01|].
    by apply Forall_nil.
  - exact recordOf_self01.
  - exact recordOf_again01.
  - reflexivity.
  - reflexivity.
  - reflexivity.
  - reflexivity.
  - cbn. intros H. apply (f_equal Some) in H. float_discr H Sample.c0009.
  - by apply Forall_nil.
  - cbn in Hm, Hcell, Hne. rewrite decide_True in Hm by reflexivity. subst m.
    exists outDict, e. split; [exact Hrun|]. split; [exact He|].
    split; [exact Hcell|exact Hne].
Defined.

(** C9 on the example: the cells [0][0] and [1][1] of [coeffs] of S29 and
    the cells other than [0][1] of its matrix for S30 are zero. *)
Lemma readFile_zero_fill_witness :
  ∃ outDict e m,
    readFile 0%float decimalFloat Sample.example = (outDict, Returned tt)
    ∧ outDict !! "S29" = Some e
    ∧ interChip e !! "S30" = Some m
    ∧ cell (coeffs e) 0 0 = Some 0%float
    ∧ cell (coeffs e) 1 1 = Some 0%float
    ∧ cell m 0 0 = Some 0%float
    ∧ cell m 1 0 = Some 0%float
    ∧ cell m 1 1 = Some 0%float.
Proof.
  pose proof run_example as Hrun.
  eexists _, _, _.
  destruct (readFile_zero_fill 0%float decimalFloat
              Sample.example _ "S29" _ Hrun (lookup_singleton_eq _ _))
    as [[_ Hself] Hinter].
  destruct (Hinter "S30" _ (lookup_singleton_eq _ _)) as [_ Hm].
  split; [exact Hrun|]. split; [apply lookup_singleton_eq|].
  split; [apply lookup_singleton_eq|].
  assert (Hno : ∀ sd i j,
            forallb (λ r, negb (targets "S29" sd i j r))
                    (records decimalFloat Sample.example) = true →
            Forall (λ r, targets "S29" sd i j r = false)
                   (records decimalFloat Sample.example)).
  { intros sd i j H. apply Forall_forall. intros r Hr%list_elem_of_In.
    rewrite forallb_forall in H. by apply negb_true_iff, H. }
  split; [|split; [|split; [|split]]];
    (apply Hself || apply Hm); try lia; apply Hno; vm_compute; reflexivity.
Defined.

(** C10 on a file whose second line names an unknown detector: the
    dictionary at the raise is the one the first line alone gives. *)
Lemma readFile_raise_atomic_witness :
  ∃ outDict pre line post,
    readFile 0%float decimalFloat [Sample.inter; Sample.unknownDet; Sample.self01]
      = (outDict, Raised (KeyError "ccd99"))
    ∧ [Sample.inter; Sample.unknownDet; Sample.self01] = pre ++ line :: post
    ∧ readFile 0%float decimalFloat pre = (outDict, Returned tt)
    ∧ loopBody 0%float decimalFloat line outDict
      = (outDict, Raised (KeyError "ccd99")).
Proof.
  assert (Hrun : readFile 0%float decimalFloat [Sample.inter; Sample.unknownDet; Sample.self01]
                 = ((readFile 0%float decimalFloat [Sample.inter]).1, Raised (KeyError "ccd99")))
    by (vm_compute; reflexivity).
  destruct (readFile_raise_atomic 0%float decimalFloat _ _ _ Hrun)
    as (pre & line & post & Hsplit & Hpre & _ & _ & _ & Hbody & _).
  exists (readFile 0%float decimalFloat [Sample.inter]).1, pre, line, post.
  split; [exact Hrun|]. split; [exact Hsplit|]. split; [exact Hpre|exact Hbody].
Defined.

(** ** The further properties on concrete files *)

(** X1 on the tokens of the inter-chip line. *)
Lemma decode_round_trip_witness :
  decode decimalFloat "ccd01A ccd02B 0.0003"
  = Returned (mkRecord "S29" 0 "S30" 1 Sample.c0003).
Proof.
  apply (decode_round_trip decimalFloat "ccd01A ccd02B 0.0003"
           "ccd01" "ccd02" "S29" "S30" "0.0003" AmpA AmpB []);
    vm_compute; reflexivity.
Defined.

(** X2 on the same line: the identifiers differ and so do the detectors. *)
Lemma self_iff_same_identifier_witness :
  ∃ v s va sa,
    PyStr.split "ccd01A ccd02B 0.0003" !! 0 = Some v
    ∧ PyStr.split "ccd01A ccd02B 0.0003" !! 1 = Some s
    ∧ ampOf v = Returned va ∧ ampOf s = Returned sa
    ∧ ("S30" = "S29" ↔ PyStr.remove (ampChar sa) s = PyStr.remove (ampChar va) v).
Proof.
  apply (self_iff_same_identifier decimalFloat "ccd01A ccd02B 0.0003"
           (mkRecord "S29" 0 "S30" 1 Sample.c0003)).
  vm_compute. reflexivity.
Defined.

(** X3 on a line whose first token has both letters. *)
Lemma both_letters_never_decode_witness :
  ∃ e, decode decimalFloat "ccd01BA ccd01A 0.001" = Raised e.
Proof.
  apply (both_letters_never_decode decimalFloat "ccd01BA ccd01A 0.001"
           "ccd01BA" "ccd01A"); vm_compute; reflexivity.
Defined.

(** X4 on a line of two tokens between two good lines. *)
Lemma too_few_tokens_IndexError_witness :
  ∃ outDict,
    readFile 0%float decimalFloat [Sample.self01] = (outDict, Returned tt)
    ∧ readFile 0%float decimalFloat [Sample.self01; Sample.twoTokens; Sample.self10]
      = (outDict, Raised IndexError).
Proof.
  eexists. split; [exact run_self01|].
  apply (too_few_tokens_IndexError 0%float decimalFloat
           [Sample.self01] [Sample.self10] Sample.twoTokens _ run_self01);
    [reflexivity|vm_compute; lia].
Defined.

(** X5 on a line whose three tokens are all wrong: the number is looked
    at first. *)
Lemma bad_coefficient_ValueError_witness :
  readFile 0%float decimalFloat [Sample.badNumber] = (∅, Raised (ValueError "1,5")).
Proof.
  apply (bad_coefficient_ValueError 0%float decimalFloat [] [] Sample.badNumber ∅
           "ccd01X" "ccd99" "1,5" []); reflexivity.
Defined.

(** X6 on a line with a trailing remark. *)
Lemma tokens_after_third_ignored_witness :
  loopBody 0%float decimalFloat Sample.trailing ∅
  = loopBody 0%float decimalFloat Sample.self01 ∅.
Proof.
  apply (tokens_after_third_ignored 0%float decimalFloat); vm_compute; reflexivity.
Defined.

(** X7 on the example: S29 is the only key, though S30 is named. *)
Lemma readFile_keys_witness :
  ∃ outDict e,
    readFile 0%float decimalFloat Sample.example = (outDict, Returned tt)
    ∧ outDict !! "S29" = Some e
    ∧ outDict !! "S30" = None
    ∧ is_Some (interChip e !! "S30")
    ∧ interChip e !! "S29" = None.
Proof.
  pose proof run_example as Hrun.
  destruct (readFile_keys 0%float decimalFloat Sample.example _ Hrun) as [Hk Hi].
  eexists _, _. split; [exact Hrun|]. split; [apply lookup_singleton_eq|].
  split; [reflexivity|]. split.
  - apply (Hi "S29" _ "S30" (lookup_singleton_eq _ _)). split; [discriminate|].
    exists (mkRecord "S29" 0 "S30" 1 Sample.c0003).
    split; [|split; reflexivity].
    apply list_elem_of_In. vm_compute. auto.
  - reflexivity.
Defined.

(** X8 on the example. *)
Lemma readFile_names_canonical_witness :
  (∃ k, detMap !! k = Some "S29")
  ∧ ∀ sd, is_Some (({[ "S30" := [[0%float; Sample.c0003]; [0%float; 0%float]] ]}
                     : gmap string (list (list float))) !! sd) →
          ∃ k, detMap !! k = Some sd.
Proof.
  exact (readFile_names_canonical 0%float decimalFloat Sample.example _ "S29" _
           run_example (lookup_singleton_eq _ _)).
Defined.

(** X9 on the example. *)
Lemma readFile_declared_shape_witness :
  ∃ outDict e,
    readFile 0%float decimalFloat Sample.example = (outDict, Returned tt)
    ∧ outDict !! "S29" = Some e
    ∧ nAmp e = 2 ∧ crosstalkShape e = (nAmp e, nAmp e)
    ∧ length (coeffs e) = nAmp e.
Proof.
  pose proof run_example as Hrun.
  eexists _, _.
  destruct (readFile_declared_shape 0%float decimalFloat Sample.example _ "S29" _
              Hrun (lookup_singleton_eq _ _)) as (Hn & Hs & Hm).
  split; [exact Hrun|]. split; [apply lookup_singleton_eq|].
  split; [exact Hn|]. split; [exact Hs|].
  exact (proj1 (Hm _ (or_introl eq_refl))).
Defined.

Lemma run_again01 :
  readFile 0%float decimalFloat [Sample.again01]
  = ({[ "S29" :=
          mkEntry {[ "OBSTYPE" := "CROSSTALK"; "DETECTOR" := "S29";
                     "DETECTOR_SERIAL" := "UNKNOWN" ]}
                  ∅ (2, 2) true 2
                  [[0%float; Sample.c0009]; [0%float; 0%float]]
                  (Some "S29") (Some "UNKNOWN") ]},
     Returned tt).
Proof. vm_compute. reflexivity. Qed.

Lemma run_self01_again01 :
  readFile 0%float decimalFloat [Sample.self01; Sample.again01]
  = ({[ "S29" :=
          mkEntry {[ "OBSTYPE" := "CROSSTALK"; "DETECTOR" := "S29";
                     "DETECTOR_SERIAL" := "UNKNOWN" ]}
                  ∅ (2, 2) true 2
                  [[0%float; Sample.c0009]; [0%float; 0%float]]
                  (Some "S29") (Some "UNKNOWN") ]},
     Returned tt).
Proof. vm_compute. reflexivity. Qed.

Lemma records_self01_again01 :
  records decimalFloat [Sample.self01; Sample.again01]
  = [mkRecord "S29" 0 "S29" 1 Sample.c0012] ++ [mkRecord "S29" 0 "S29" 1 Sample.c0009].
Proof. vm_compute. reflexivity. Qed.

Lemma records_again01 :
  records decimalFloat [Sample.again01]
  = [] ++ [mkRecord "S29" 0 "S29" 1 Sample.c0009].
Proof. vm_compute. reflexivity. Qed.

(** X10 on a file of two lines for one cell and the file of the second
    line alone. *)
Lemma readFile_determined_by_last_writes_witness :
  ∃ out1 out2,
    readFile 0%float decimalFloat [Sample.self01; Sample.again01] = (out1, Returned tt)
    ∧ readFile 0%float decimalFloat [Sample.again01] = (out2, Returned tt)
    ∧ out1 = out2.
Proof.
  eexists _, _. split; [exact run_self01_again01|]. split; [exact run_again01|].
  apply (readFile_determined_by_last_writes 0%float decimalFloat
           [Sample.self01; Sample.again01] [Sample.again01]
           _ _ run_self01_again01 run_again01).
  - intros d sd. rewrite records_self01_again01, records_again01. split.
    + intros (r & Hr & Hv & Hs). exists (mkRecord "S29" 0 "S29" 1 Sample.c0009).
      split; [apply list_elem_of_here|].
      apply elem_of_app in Hr as [Hr|Hr]; apply list_elem_of_singleton in Hr;
        subst r; split; assumption.
    + intros (r & Hr & Hv & Hs). exists r. split; [|split; assumption].
      apply elem_of_app. right. exact Hr.
  - intros d sd i j. rewrite records_self01_again01, records_again01.
    rewrite !lastCoeff_snoc.
    destruct (targets d sd i j (mkRecord "S29" 0 "S29" 1 Sample.c0009)) eqn:Ht;
      [reflexivity|].
    change (lastCoeff d sd i j [mkRecord "S29" 0 "S29" 1 Sample.c0012] = None).
    apply (proj2 (lastCoeff_None_iff decimalFloat d sd i j _)).
    apply Forall_cons. split; [exact Ht|]. apply Forall_nil. exact I.
Defined.

(** X11 on the example with its first two lines exchanged. *)
Lemma readFile_order_irrelevant_witness :
  ∃ outDict,
    readFile 0%float decimalFloat [Sample.self01; Sample.self10; Sample.inter]
      = (outDict, Returned tt)
    ∧ readFile 0%float decimalFloat [Sample.self10; Sample.self01; Sample.inter]
      = (outDict, Returned tt).
Proof.
  eexists. split; [exact run_example|].
  apply (readFile_order_irrelevant 0%float decimalFloat Sample.example
           [Sample.self10; Sample.self01; Sample.inter] _ run_example).
  - apply Permutation_swap.
  - apply (bool_decide_unpack _). vm_compute. exact I.
Defined.


(** X13 on the two kinds of entry: S29 of the example, with a record with
    itself, and S29 of the inter-chip line alone, without. *)
Lemma makeDetectorCrosstalk_after_readFile_witness :
  (∃ outDict e handed,
     readFile 0%float decimalFloat Sample.example = (outDict, Returned tt)
     ∧ outDict !! "S29" = Some e
     ∧ makeDetectorCrosstalk "/ct" e
       = (handed,
          [FromDict handed; UpdateMetadata true; GetCrosstalkDir;
           WriteFits "/ct/S29.fits"],
          Returned tt)
     ∧ interChip handed = interChip e)
  ∧ (∃ outDict e handed,
       readFile 0%float decimalFloat [Sample.inter] = (outDict, Returned tt)
       ∧ outDict !! "S29" = Some e
       ∧ makeDetectorCrosstalk "/ct" e
         = (handed, [FromDict handed; UpdateMetadata true; GetCrosstalkDir],
            Raised (KeyError "DETECTOR"))).
Proof.
  split.
  - pose proof run_example as Hrun. eexists _, _, _.
    destruct (makeDetectorCrosstalk_after_readFile 0%float decimalFloat
                Sample.example _ "S29" "/ct" _ Hrun (lookup_singleton_eq _ _))
      as (Hi & _ & Hmk).
    split; [exact Hrun|]. split; [apply lookup_singleton_eq|].
    split; [exact Hmk|exact Hi].
  - pose proof run_inter as Hrun. eexists _, _, _.
    destruct (makeDetectorCrosstalk_after_readFile 0%float decimalFloat
                [Sample.inter] _ "S29" "/ct" _ Hrun (lookup_singleton_eq _ _))
      as (_ & _ & Hmk).
    split; [exact Hrun|]. split; [apply lookup_singleton_eq|]. exact Hmk.
Defined.

(** X14 on the entry of S29 in the example. *)
Lemma makeDetectorCrosstalk_twice_witness :
  ∃ outDict e e1 calls1 o1 calls2 o2,
    readFile 0%float decimalFloat Sample.example = (outDict, Returned tt)
    ∧ outDict !! "S29" = Some e
    ∧ makeDetectorCrosstalk "/ct" e = (e1, calls1, o1)
    ∧ coeffs e1 ≠ coeffs e
    ∧ makeDetectorCrosstalk "/ct" e1 = (e, FromDict e :: calls2, o2).
Proof.
  pose proof run_example as Hrun. eexists _, _.
  destruct (makeDetectorCrosstalk_twice 0%float decimalFloat
              Sample.example _ "S29" "/ct" _ Hrun (lookup_singleton_eq _ _))
    as (e1 & calls1 & o1 & calls2 & o2 & H1 & H2 & _).
  exists e1, calls1, o1, calls2, o2.
  split; [exact Hrun|]. split; [apply lookup_singleton_eq|].
  split; [exact H1|]. split; [|exact H2].
  injection H1 as <- _ _. cbn. intros H.
  apply (f_equal (λ m, cell m 0 1)) in H. float_discr H Sample.c0009.
Defined.

(** X15 on a file whose second line names an unknown detector. *)
Lemma main_bad_line_no_output_witness :
  ∃ e, main 0%float decimalFloat true true [Sample.self01; Sample.unknownDet]
            "/ct" false
       = ([], Uncaught e).
Proof.
  apply (main_bad_line_no_output 0%float decimalFloat).
  apply Exists_cons_tl, Exists_cons_hd. split; vm_compute; reflexivity.
Defined.

Lemma example_decodes :
  Forall (λ line, isComment line = true ∨ is_Some (recordOf decimalFloat line))
         Sample.example.
Proof.
  repeat (apply Forall_cons; split; [right; eexists; vm_compute; reflexivity|]).
  apply Forall_nil. exact I.
Qed.

(** X16 on the example. *)
Lemma main_refuses_existing_directory_witness :
  main 0%float decimalFloat true false Sample.example "/ct" true
  = ([Collaborator GetCrosstalkDir; PrintExists "/ct"], SysExit 1).
Proof.
  exact (main_refuses_existing_directory 0%float decimalFloat true
           Sample.example "/ct" example_decodes).
Defined.

(** X17 on the example, the directory not existing. *)
Lemma main_writes_one_file_per_victim_witness :
  ∃ outs,
    main 0%float decimalFloat false false Sample.example "/ct" false
      = (outs, Completed)
    ∧ written outs = ["/ct/S29.fits"]
    ∧ Makedirs "/ct" ∈ outs.
Proof.
  destruct (main_writes_one_file_per_victim 0%float decimalFloat false false false
              Sample.example "/ct" example_decodes) as (outs & Hmain & Hw & _ & Hmk).
  - apply Forall_forall.
    repeat (apply Forall_cons; split; [vm_compute; reflexivity|]).
    apply Forall_nil. exact I.
  - reflexivity.
  - exists outs. split; [exact Hmain|]. split; [exact Hw|].
    apply Hmk. reflexivity.
Defined.

Lemma gap_decodes :
  Forall (λ line, isComment line = true ∨ is_Some (recordOf decimalFloat line))
         [Sample.self01; Sample.victim02; Sample.self03].
Proof.
  repeat (apply Forall_cons; split; [right; eexists; vm_compute; reflexivity|]).
  apply Forall_nil. exact I.
Qed.

(** X18 on a file with the victims S29, S30, S31, in that order, S30
    without a record with itself: the file of S29 is written, then the
    script fails. *)
Lemma main_stops_at_first_gap_witness :
  ∃ outs,
    main 0%float decimalFloat false true
         [Sample.self01; Sample.victim02; Sample.self03] "/ct" true
      = (outs, Uncaught (KeyError "DETECTOR"))
    ∧ written outs = ["/ct/S29.fits"].
Proof.
  apply (main_stops_at_first_gap 0%float decimalFloat false true true
           [Sample.self01; Sample.victim02; Sample.self03] "/ct"
           ["S29"] ["S31"] "S30" gap_decodes).
  - vm_compute. reflexivity.
  - intros d' ->%list_elem_of_singleton. vm_compute. reflexivity.
  - vm_compute. reflexivity.
  - reflexivity.
Defined.

(** X20 on a name with spaces. *)
Lemma shortNameFunc_no_space_witness :
  Instrument.shortNameFunc "R 01 S" = "R_01_S"
  ∧ Instrument.shortNameFunc "S29" = "S29".
Proof.
  split; [reflexivity|].
  exact (proj1 (proj2 (proj2 (InstrumentFacts.shortNameFunc_no_space "S29"))) eq_refl).
Defined.

(** X21 on the detector S29 and on a detector without a name. *)
Lemma detectorRecord_splits_name_witness :
  (∃ rec, Instrument.detectorRecord "S29" 1 "DetectorType.SCIENCE" = Returned rec
          ∧ Instrument.raft rec = "S" ∧ Instrument.name_in_raft rec = "29")
  ∧ Instrument.detectorRecord "" 1 "DetectorType.SCIENCE" = Raised IndexError.
Proof.
  destruct (InstrumentFacts.detectorRecord_splits_name "S29" 1 "DetectorType.SCIENCE")
    as [_ Hsome].
  destruct (InstrumentFacts.detectorRecord_splits_name "" 1 "DetectorType.SCIENCE")
    as [Hnone _].
  split; [|apply Hnone; reflexivity].
  destruct (Hsome ltac:(discriminate)) as (rec & Hrec & _).
  exists rec. split; [exact Hrec|]. injection Hrec as <-. split; reflexivity.
Defined.

(** X22 on the type of a science detector. *)
Lemma detectorRecord_purpose_witness :
  ∃ rec, Instrument.detectorRecord "S29" 1 "DetectorType.SCIENCE" = Returned rec
         ∧ Instrument.purpose rec = "SCIENCE"
         ∧ PyStr.contains "." (Instrument.purpose rec) = false.
Proof.
  destruct (InstrumentFacts.detectorRecord_purpose "S29" 1 "DetectorType.SCIENCE")
    as (rec & before & Hrec & Hno & _); [discriminate|].
  exists rec. split; [exact Hrec|]. split; [|exact Hno].
  injection Hrec as <-. reflexivity.
Defined.
